(** * The gathering web scraper: LinkScraper and Application

    A shallow embedding of [links-scraper.js] (class [LinkScraper]) and of
    [application.js] (class [Application]), and the properties of the link
    extractor, the calendar intersection, the showtime collector, the
    reservation authenticator, the availability reconciler and the final
    assembly.

    - JavaScript strings are sequences of code units below 256, written as
      [string]; numbers are integers or [NaN].
    - [fetch] and JSDOM are the environment: a record [World] gives the
      answer of every request and the result of every DOM query.
    - An [async] method is a computation that threads the trace of requests
      and console lines and either returns or throws. *)

From Stdlib Require Import List String Ascii ZArith Lia Bool Arith.
From Stdlib Require Import Permutation Sorted DecimalString.
From Stdlib Require DecimalPos.
Import ListNotations.
Open Scope string_scope.

(** ** The JavaScript built-ins the two classes call *)

Module JS.

(** The double quote and the line feed, by code. *)
Definition dquote : string := String "034"%char EmptyString.
Definition newline : string := String "010"%char EmptyString.

(** *** Numbers *)

(** A number is an integer or [NaN]. Integers are exact: the rounding of
    integers beyond [MAX_SAFE_INTEGER] to doubles is not modelled, and
    numbers with a fraction and the infinities have no place here. What is
    proved of a number that the program prints or reads back is proved
    within these bounds. *)
Inductive number : Type :=
| NaN
| Num (z : Z).

(** [Number.MAX_SAFE_INTEGER], 2^53 - 1: up to it every integer is a double,
    and is printed with all its digits. *)
Definition MAX_SAFE_INTEGER : Z := 9007199254740991.

(** [a === b] on numbers: [NaN] equals nothing, itself included. *)
Definition strict_eq (a b : number) : bool :=
  match a, b with
  | Num x, Num y => Z.eqb x y
  | _, _ => false
  end.

(** [a !== b]. *)
Definition strict_neq (a b : number) : bool := negb (strict_eq a b).

(** [a + k] for an integer constant [k]. *)
Definition plus (a : number) (k : Z) : number :=
  match a with
  | NaN => NaN
  | Num x => Num (x + k)
  end.

(** [n.toString()], also what a template literal prints for a number. *)
Definition number_toString (a : number) : string :=
  match a with
  | NaN => "NaN"
  | Num z => NilZero.string_of_int (Z.to_int z)
  end.

(** *** Characters *)

Definition code (c : ascii) : nat := nat_of_ascii c.

(** White space of [parseInt] and [Number] among the code units below 256:
    TAB, LF, VT, FF, CR, SP and NBSP. *)
Definition isWhiteSpace (c : ascii) : bool :=
  let n := code c in
  (((9 <=? n) && (n <=? 13)) || (n =? 32) || (n =? 160))%nat.

(** The value of a digit in radix up to 16. *)
Definition digitValue (c : ascii) : option Z :=
  let n := code c in
  if ((48 <=? n) && (n <=? 57))%nat then Some (Z.of_nat (n - 48))
  else if ((97 <=? n) && (n <=? 102))%nat then Some (Z.of_nat (n - 87))
  else if ((65 <=? n) && (n <=? 70))%nat then Some (Z.of_nat (n - 55))
  else None.

Definition digitIn (radix : Z) (c : ascii) : option Z :=
  match digitValue c with
  | Some d => if (d <? radix)%Z then Some d else None
  | None => None
  end.

(** [c.toLowerCase()] for one code unit: A-Z, and the Latin-1 capitals
    (192-222 but the multiplication sign 215). *)
Definition lowerChar (c : ascii) : ascii :=
  let n := code c in
  if (((65 <=? n) && (n <=? 90))
      || ((192 <=? n) && (n <=? 222) && negb (n =? 215)))%nat
  then ascii_of_nat (n + 32)
  else c.

(** *** Strings *)

(** [s.toLowerCase()]. *)
Fixpoint toLowerCase (s : string) : string :=
  match s with
  | EmptyString => EmptyString
  | String c r => String (lowerChar c) (toLowerCase r)
  end.

(** [s.startsWith(p)]. *)
Fixpoint startsWith (s p : string) : bool :=
  match p with
  | EmptyString => true
  | String a p' =>
      match s with
      | EmptyString => false
      | String b s' => Ascii.eqb a b && startsWith s' p'
      end
  end.

Fixpoint drop (n : nat) (s : string) : string :=
  match n, s with
  | O, _ => s
  | S _, EmptyString => EmptyString
  | S k, String _ r => drop k r
  end.

Fixpoint take (n : nat) (s : string) : string :=
  match n, s with
  | O, _ => EmptyString
  | S _, EmptyString => EmptyString
  | S k, String c r => String c (take k r)
  end.

(** [s.slice(a, b)] and [s.slice(a)] for indices that are not negative. *)
Definition slice (a b : nat) (s : string) : string := take (b - a) (drop a s).
Definition sliceFrom (a : nat) (s : string) : string := drop a s.

(** [s.split(c)[0]] for a separator of one character: what stands before
    the first [c], the whole string when there is none. *)
Fixpoint splitHead (c : ascii) (s : string) : string :=
  match s with
  | EmptyString => EmptyString
  | String a r => if Ascii.eqb a c then EmptyString else String a (splitHead c r)
  end.

Fixpoint repeatChar (c : ascii) (n : nat) : string :=
  match n with
  | O => EmptyString
  | S k => String c (repeatChar c k)
  end.

(** [s.padStart(n, c)] for a filler of one character. *)
Definition padStart (n : nat) (c : ascii) (s : string) : string :=
  repeatChar c (n - String.length s) ++ s.

(** [a.join(sep)]. *)
Definition join (sep : string) (a : list string) : string := String.concat sep a.

Fixpoint trimStart (s : string) : string :=
  match s with
  | EmptyString => EmptyString
  | String c r => if isWhiteSpace c then trimStart r else s
  end.

(** Removes the white space at the end. *)
Fixpoint trimEnd (s : string) : string :=
  match s with
  | EmptyString => EmptyString
  | String c r =>
      match trimEnd r with
      | EmptyString => if isWhiteSpace c then EmptyString else String c EmptyString
      | r' => String c r'
      end
  end.

(** The digits in [radix] at the start of [s], as a number, with how many
    there are: [acc] is the value read so far. *)
Fixpoint readDigits (radix : Z) (s : string) (acc : Z) (n : nat) : Z * nat * string :=
  match s with
  | EmptyString => (acc, n, s)
  | String c r =>
      match digitIn radix c with
      | Some d => readDigits radix r (acc * radix + d)%Z (S n)
      | None => (acc, n, s)
      end
  end.

(** The sign at the start of [s], and the rest. *)
Definition readSign (s : string) : Z * string :=
  match s with
  | String c r =>
      if Ascii.eqb c "-" then ((-1)%Z, r)
      else if Ascii.eqb c "+" then (1%Z, r)
      else (1%Z, s)
  | EmptyString => (1%Z, s)
  end.

(** A [0] and one of the two letters [l], [u] at the start of [s]: what
    follows them. *)
Definition radixPrefix (l u : ascii) (s : string) : option string :=
  match s with
  | String a (String b r) =>
      if Ascii.eqb a "0" && (Ascii.eqb b l || Ascii.eqb b u) then Some r else None
  | _ => None
  end.

(** [parseInt(s)], no radix given: white space, a sign, [0x] or [0X] for
    radix 16, then the longest run of digits; [NaN] when there is no
    digit. What follows the digits is ignored. *)
Definition parseInt (s : string) : number :=
  let '(sign, s1) := readSign (trimStart s) in
  let '(radix, s2) :=
    match radixPrefix "x" "X" s1 with
    | Some r => (16%Z, r)
    | None => (10%Z, s1)
    end in
  match readDigits radix s2 0%Z 0 with
  | (_, O, _) => NaN
  | (v, S _, _) => Num (sign * v)
  end.

(** All of [s] as digits in [radix]; [NaN] when [s] is empty or has
    another character. *)
Definition allDigits (radix : Z) (s : string) : number :=
  match readDigits radix s 0%Z 0 with
  | (v, S _, EmptyString) => Num v
  | _ => NaN
  end.

(** A decimal integer with its sign. *)
Definition signedDecimal (s : string) : number :=
  let '(sign, r) := readSign s in
  match allDigits 10 r with
  | Num v => Num (sign * v)
  | NaN => NaN
  end.

(** [Number(s)] for a string: white space is trimmed at both ends, the
    empty string is 0, then a numeral in radix 16, 8 or 2 ([0x], [0o],
    [0b], no sign) or a signed decimal integer. Numerals with a fraction
    or an exponent and [Infinity] have no value here: the sites' hours and
    option values are integers, and such a string reads as [NaN]. *)
Definition Number (s : string) : number :=
  let t := trimEnd (trimStart s) in
  match t with
  | EmptyString => Num 0
  | _ =>
      match radixPrefix "x" "X" t, radixPrefix "o" "O" t, radixPrefix "b" "B" t with
      | Some r, _, _ => allDigits 16 r
      | None, Some r, _ => allDigits 8 r
      | None, None, Some r => allDigits 2 r
      | None, None, None => signedDecimal t
      end
  end.

(** *** Values of JSON fields and of properties that may be missing *)

Inductive value : Type :=
| VUndefined
| VNull
| VBool (b : bool)
| VNumber (n : number)
| VString (s : string).

(** [v !== 0]: false for the number 0 only. *)
Definition notZero (v : value) : bool :=
  match v with
  | VNumber (Num z) => negb (Z.eqb z 0)
  | _ => true
  end.

(** What a template literal prints for a value that is a string or
    [undefined]. *)
Definition show (o : option string) : string :=
  match o with
  | Some s => s
  | None => "undefined"
  end.

(** *** Arrays and sets of strings *)

Definition includes (a : list string) (x : string) : bool :=
  existsb (String.eqb x) a.

(** A [Set] of strings keeps its elements in insertion order. *)
Definition Set_add (s : list string) (x : string) : list string :=
  if includes s x then s else s ++ [x].

(** [[...new Set(a)]]: the elements of [a], each at its first place. *)
Definition Set_of (a : list string) : list string := fold_left Set_add a [].

Fixpoint insert (x : string) (a : list string) : list string :=
  match a with
  | [] => [x]
  | y :: r => if String.leb x y then x :: a else y :: insert x r
  end.

(** [a.sort()] with the default comparison, the order of code units. The
    order is total and only equal strings compare equal, so the sorted
    array does not depend on the algorithm. *)
Definition sort (a : list string) : list string := fold_right insert [] a.

End JS.

(** ** The environment: HTTP, the DOM, the console *)

Module Env.

(** What [fetch] is given. *)
Record request : Type := {
  url : string;
  method : string;
  headers : list (string * string);
  body : option string;
  redirect : string
}.

(** One object of the array the cinema's [check] endpoint answers with. *)
Record entry : Type := {
  status : JS.value;
  time : JS.value
}.

(** An exception: its kind and its message. *)
Inductive error : Type :=
| TypeError (message : string)
| SyntaxError (message : string).

Definition message_of (e : error) : string :=
  match e with
  | TypeError m => m
  | SyntaxError m => m
  end.

(** A response: its headers (lower-case names, one entry per name, as
    [Headers.get] reads them), its body as text, and its body as JSON: an
    array of [{status, time}] objects, or the error of [json()] for any
    other body. *)
Record response : Type := {
  resp_headers : list (string * string);
  resp_text : string;
  resp_json : error + list entry
}.

(** An [option] element of a [select]: its [value] and its [textContent]. *)
Record option_element : Type := {
  value : string;
  text : string
}.

(** What the run does to the outside, in order. *)
Inductive event : Type :=
| Fetch (rq : request)
| ConsoleLog (line : string)
| ConsoleError (line : string).

(** The sites and JSDOM.
    - [fetch t rq]: the answer to [rq] after the events [t], or the error
      with which the promise of [fetch], or of reading the body, rejects;
    - [location_href]: [dom.window.location.href] of a document created
      with the option [url];
    - [anchors html url]: the [href] property of each element that
      [a[href^="http://"], a[href^="https://"], a[href^="./"]] selects, in
      document order;
    - [URL_href h base]: [new URL(h, base).href], nothing when the
      constructor throws;
    - [th_text], [td_text]: the [textContent] of the [th] and of the [td]
      elements;
    - [select_options html id]: the options of the element with that id,
      as [Array.from(element.options)] lists them, nothing when there is
      no such element or it has no [options];
    - [has_element html id]: whether [getElementById(id)] finds an
      element;
    - [group1_values]: the [value] of each [input[name="group1"]]. *)
Record World : Type := {
  fetch : list event -> request -> error + response;
  location_href : option string -> string;
  anchors : string -> option string -> list string;
  URL_href : string -> string -> option string;
  th_text : string -> list string;
  td_text : string -> list string;
  select_options : string -> string -> option (list option_element);
  has_element : string -> string -> bool;
  group1_values : string -> list string
}.

(** [fetch(url)] with no options. *)
Definition GET (u : string) : request :=
  {| url := u; method := "GET"; headers := []; body := None; redirect := "follow" |}.

(** [headers.get(name)]: [null] when the header is missing. *)
Fixpoint headers_get (name : string) (hs : list (string * string)) : option string :=
  match hs with
  | [] => None
  | (k, v) :: r => if String.eqb k name then Some v else headers_get name r
  end.

(** What a template literal and a header value print for a string or
    [null]. *)
Definition show_null (o : option string) : string :=
  match o with
  | Some s => s
  | None => "null"
  end.

(** *** Computations: a trace of events, and a result or an exception *)

Definition M (A : Type) : Type := list event -> (error + A) * list event.

Definition ret {A} (a : A) : M A := fun t => (inr a, t).
Definition throw {A} (e : error) : M A := fun t => (inl e, t).
Definition bind {A B} (m : M A) (k : A -> M B) : M B :=
  fun t =>
    match m t with
    | (inr a, t') => k a t'
    | (inl e, t') => (inl e, t')
    end.
(** [try { m } catch (error) { h error }]. *)
Definition try_catch {A} (m : M A) (h : error -> M A) : M A :=
  fun t =>
    match m t with
    | (inr a, t') => (inr a, t')
    | (inl e, t') => h e t'
    end.
Definition emit (e : event) : M unit := fun t => (inr tt, (t ++ [e])%list).
Definition lift {A} (r : error + A) : M A := fun t => (r, t).

(** Pure steps that may throw. *)
Definition bindE {A B} (r : error + A) (k : A -> error + B) : error + B :=
  match r with
  | inr a => k a
  | inl e => inl e
  end.

(** [a.map(f)] for a callback that may throw: the first exception ends it. *)
Fixpoint mapE {A B} (f : A -> error + B) (l : list A) : error + list B :=
  match l with
  | [] => inr []
  | x :: r =>
      bindE (f x) (fun y => bindE (mapE f r) (fun ys => inr (y :: ys)))
  end.

(** [for (const x of l) { data.push(...(await f x)) }]. *)
Fixpoint forPush {A B} (f : A -> M (list B)) (l : list A) : M (list B) :=
  match l with
  | [] => ret []
  | x :: r =>
      bind (f x) (fun ys => bind (forPush f r) (fun zs => ret (ys ++ zs)%list))
  end.

End Env.

Import Env.

Declare Scope js_scope.
Delimit Scope js_scope with js.
Notation "x <- m ;; k" := (bind m (fun x => k))
(at level 61, m at next level, right associativity) : js_scope.
Notation "m ;;; k" := (bind m (fun _ => k))
(at level 61, right associativity) : js_scope.
Notation "x <-! r ;; k" := (bindE r (fun x => k))
(at level 61, r at next level, right associativity) : js_scope.
Open Scope js_scope.

(** ** links-scraper.js: class LinkScraper *)

Module LinkScraper.
Section LinkScraper.

Variable w : World.

(** [await fetch(rq)]: the request is recorded, then the world answers. *)
Definition fetch_ (rq : request) : M response :=
  fun t => (fetch w t rq, (t ++ [Fetch rq])%list).

(** The callback of [.map] in [extractLinks]: an [href] that starts with
    [./] goes through [new URL(href, baseUrl)]. *)
Definition absolute (baseUrl href : string) : error + string :=
  if JS.startsWith href "./" then
    match URL_href w href baseUrl with
    | Some u => inr u
    | None => inl (TypeError "Invalid URL")
    end
  else inr href.

(** The constant [links] of [extractLinks]: the anchors' hrefs, mapped and
    sorted. *)
Definition links (baseUrl : string) (hrefs : list string) : error + list string :=
  l <-! mapE (absolute baseUrl) hrefs ;; inr (JS.sort l).

(** What [extractLinks] makes of the selected anchors. *)
Definition uniqueLinks (baseUrl : string) (hrefs : list string) : error + list string :=
  l <-! links baseUrl hrefs ;; inr (JS.Set_of l).

(** [extractLinks(url)]; an [undefined] url is fetched as the text
    [undefined]. *)
Definition extractLinks (url : option string) : M (list string) :=
  response <- fetch_ (GET (JS.show url)) ;;
  let text := resp_text response in
  let baseUrl := location_href w url in
  lift (uniqueLinks baseUrl (anchors w text url)).

Definition fetchText (url : option string) : M string :=
  response <- fetch_ (GET (JS.show url)) ;;
  ret (resp_text response).

(** The loop of [parseHtmlDates]: [tdElements[i]] is [undefined] past the
    end of the [td] cells, and [toLowerCase] throws on it. *)
Fixpoint okDays (thElements tdElements : list string) : error + list string :=
  match thElements with
  | [] => inr []
  | th :: ths =>
      match tdElements with
      | [] => inl (TypeError "Cannot read properties of undefined (reading 'toLowerCase')")
      | td :: tds =>
          rest <-! okDays ths tds ;;
          inr (if String.eqb (JS.toLowerCase td) "ok" then th :: rest else rest)
      end
  end.

Definition parseHtmlDates (url : option string) : M (list string) :=
  htmlContent <- fetchText url ;;
  lift (okDays (th_text w htmlContent) (td_text w htmlContent)).

(** An element of the array [iterateMovieDates] returns. *)
Record Showing : Type := {
  timeOp : JS.value;
  movie : option string
}.

(** [n.toString().padStart(2, '0')], the text of a day or movie number. *)
Definition twoDigits (n : JS.number) : string :=
  JS.padStart 2 "0" (JS.number_toString n).

(** [getCheckUrl(secondLink, day, movie)]. *)
Definition getCheckUrl (secondLink : option string) (day movie_ : string) : M (list entry) :=
  let url := JS.show secondLink ++ "/check?day=" ++ day ++ "&movie=" ++ movie_ in
  response <- fetch_ (GET url) ;;
  lift (resp_json response).

(** The constant [removeZero]. *)
Definition removeZero (content : list entry) : list entry :=
  filter (fun num => JS.notZero (status num)) content.

(** The constant [movieTitle] for the text [movieString]. *)
Definition movieTitle (options : list option_element) (movieString : string) : option string :=
  match find (fun option => String.eqb (value option) movieString) options with
  | Some movieTitleOption => Some (text movieTitleOption)
  | None => None
  end.

(** The constant [movieTimes]: what one turn of the loop pushes, from the
    answer [content] of the check endpoint. *)
Definition movieTimes (options : list option_element) (movieString : string)
           (content : list entry) : list Showing :=
  let times := map time (removeZero content) in
  map (fun time => {| timeOp := time; movie := movieTitle options movieString |}) times.

(** What [Array.from(element.options)] throws for the element with the
    id [id] when it gives no options: the element is [null], or it is an
    element without [options] and [Array.from] is given [undefined]. *)
Definition noOptions (htmlMovie id : string) : error :=
  if has_element w htmlMovie id
  then TypeError "undefined is not iterable (cannot read property Symbol(Symbol.iterator))"
  else TypeError "Cannot read properties of null (reading 'options')".

(** [iterateMovieDates(secondLink, goodDay)]. *)
Definition iterateMovieDates (secondLink : option string) (goodDay : string) : M (list Showing) :=
  htmlMovie <- fetchText secondLink ;;
  match select_options w htmlMovie "movie" with
  | None => throw (noOptions htmlMovie "movie")
  | Some options =>
      match select_options w htmlMovie "day" with
      | None => throw (noOptions htmlMovie "day")
      | Some dayOp =>
          match find (fun option => String.eqb (text option) goodDay) dayOp with
          | None => emit (ConsoleError "No dates available") ;;; ret []
          | Some goodDayOption =>
              let goodDayNr := JS.Number (value goodDayOption) in
              let dayString := twoDigits goodDayNr in
              forPush
                (fun movie =>
                   let movieString := twoDigits (JS.Num (Z.of_nat movie)) in
                   content <- getCheckUrl secondLink dayString movieString ;;
                   ret (movieTimes options movieString content))
                (seq 1 (List.length options - 1))
          end
      end
  end.

(** The body of the login request: [JSON.stringify] of the credentials. *)
Definition credentials : string :=
  "{" ++ JS.dquote ++ "username" ++ JS.dquote ++ ":" ++ JS.dquote ++ "zeke" ++ JS.dquote
      ++ "," ++ JS.dquote ++ "password" ++ JS.dquote ++ ":" ++ JS.dquote ++ "coys" ++ JS.dquote
      ++ "}".

Definition loginRequest (thirdLink : option string) : request :=
  {| url := JS.show thirdLink ++ "/login";
     method := "POST";
     headers := [("Content-Type", "application/json")];
     body := Some credentials;
     redirect := "manual" |}.

(** The second request of [restaurantAuthentication], from the headers of
    the login response. *)
Definition redirectRequest (thirdLink : option string) (response : response) : request :=
  let cookie := headers_get "set-cookie" (resp_headers response) in
  let redirectUrl := JS.show thirdLink ++ show_null (headers_get "location" (resp_headers response)) in
  {| url := redirectUrl;
     method := "GET";
     headers := [("Cookie", show_null cookie)];
     body := None;
     redirect := "follow" |}.

(** [restaurantAuthentication(thirdLink)]. *)
Definition restaurantAuthentication (thirdLink : option string) : M string :=
  response <- fetch_ (loginRequest thirdLink) ;;
  redirectResponse <- fetch_ (redirectRequest thirdLink response) ;;
  ret (resp_text redirectResponse).

(** The constant [filterDays], from the input values and the day names. *)
Definition filterDays (inputElements dateInfo : list string) : list string :=
  let dateInfo := map JS.toLowerCase dateInfo in
  filter (fun input =>
            let firstThree := JS.slice 0 3 input in
            existsb (fun day => JS.startsWith day firstThree) dateInfo)
         inputElements.

(** [film.timeOp.split(':')[0]]: only a string has [split]. *)
Definition hourText (timeOp_ : JS.value) : error + string :=
  match timeOp_ with
  | JS.VString s => inr (JS.splitHead ":" s)
  | JS.VUndefined =>
      inl (TypeError "Cannot read properties of undefined (reading 'split')")
  | JS.VNull =>
      inl (TypeError "Cannot read properties of null (reading 'split')")
  | _ => inl (TypeError "film.timeOp.split is not a function")
  end.

Definition timeStart (timeSlot : string) : JS.number := JS.parseInt (JS.slice 3 5 timeSlot).
Definition timeEnd (timeSlot : string) : JS.number := JS.parseInt (JS.sliceFrom 5 timeSlot).

(** The constant [filteredTimes] for the target hour [hourTwo]. *)
Definition filteredTimes (filterDays_ : list string) (hourTwo : JS.number) : list string :=
  filter (fun timeSlot => JS.strict_eq (timeStart timeSlot) hourTwo) filterDays_.

(** The callback of [resTime]: the text of one reservation. *)
Definition window (timeSlot : string) : string :=
  JS.number_toString (timeStart timeSlot) ++ "-" ++ JS.number_toString (timeEnd timeSlot).

(** The constant [resTime] of one film. *)
Definition resTime (filterDays_ : list string) (film : Showing) : error + list string :=
  h <-! hourText (timeOp film) ;;
  let hour := JS.parseInt h in
  let hourTwo := JS.plus hour 2 in
  inr (map window (filteredTimes filterDays_ hourTwo)).

(** The loop over [cinemaInfo]. *)
Fixpoint reservation (filterDays_ : list string) (cinemaInfo : list Showing) : error + list string :=
  match cinemaInfo with
  | [] => inr []
  | film :: films =>
      r <-! resTime filterDays_ film ;;
      rs <-! reservation filterDays_ films ;;
      inr (r ++ rs)%list
  end.

(** [sortAvailability(restFree, cinemaInfo, dateInfo)]; [cinemaInfo] is
    [undefined] when [extractCinema] had no links. *)
Definition sortAvailability (restFree : string) (cinemaInfo : option (list Showing))
           (dateInfo : list string) : error + list string :=
  let inputElements := group1_values w restFree in
  let filterDays_ := filterDays inputElements dateInfo in
  match cinemaInfo with
  | None => inl (TypeError "cinemaInfo is not iterable")
  | Some films => reservation filterDays_ films
  end.

End LinkScraper.
End LinkScraper.

(** ** application.js: class Application *)

Module Application.
Section Application.

Import LinkScraper.

Variable w : World.
(** [process.argv[2]], [undefined] when the start URL was not given. *)
Variable argv2 : option string.

(** [initial()]: the links of the start page, [undefined] after a logged
    failure. *)
Definition initial : M (option (list string)) :=
  try_catch
    (links <- extractLinks w argv2 ;; ret (Some links))
    (fun error =>
       emit (ConsoleError ("Failed to fetch links: " ++ message_of error)) ;;;
       ret None).

(** The loop in the [try] block of [extractDates]: what was pushed to
    [arrayDays] stays when a later turn throws. The result is the array
    with the exception that ended the loop, if any. *)
Fixpoint pushOkDays (linksOnPage : list string) (arrayDays : list (list string))
  : list event -> (list (list string) * option error) * list event :=
  match linksOnPage with
  | [] => fun t => ((arrayDays, None), t)
  | nestedLink :: r =>
      fun t =>
        match parseHtmlDates w (Some nestedLink) t with
        | (inr okDays, t') => pushOkDays r (arrayDays ++ [okDays])%list t'
        | (inl e, t') => ((arrayDays, Some e), t')
        end
  end.

(** The [try]/[catch] of [extractDates]: the array [arrayDays] after it. *)
Definition collectDays (firstLink : option string) : M (list (list string)) :=
  fun t =>
    match extractLinks w firstLink t with
    | (inr linksOnPage, t') =>
        match pushOkDays linksOnPage [] t' with
        | ((arrayDays, None), t'') => (inr arrayDays, t'')
        | ((arrayDays, Some _), t'') =>
            (inr arrayDays,
             (t'' ++ [ConsoleError ("Failed to fetch links from: " ++ JS.show firstLink)])%list)
        end
    | (inl _, t') =>
        (inr [],
         (t' ++ [ConsoleError ("Failed to fetch links from: " ++ JS.show firstLink)])%list)
    end.

(** The constant [goodDay]: [arrayDays.shift()] is [undefined] on the empty
    array, and [filter] throws on it. *)
Definition goodDay (arrayDays : list (list string)) : error + list string :=
  match arrayDays with
  | [] => inl (TypeError "Cannot read properties of undefined (reading 'filter')")
  | first :: arrayDays =>
      inr (filter (fun day => forallb (fun okDays => JS.includes okDays day) arrayDays) first)
  end.

(** [extractDates()]; [undefined] when there are no links. *)
Definition extractDates : M (option (list string)) :=
  links <- initial ;;
  match links with
  | None => emit (ConsoleError "No links fetched") ;;; ret None
  | Some links =>
      let firstLink := nth_error links 0 in
      arrayDays <- collectDays firstLink ;;
      goodDay_ <- lift (goodDay arrayDays) ;;
      emit (ConsoleLog "Scraping Date...OK") ;;;
      ret (Some goodDay_)
  end.

(** [extractCinema(goodDays)]. *)
Definition extractCinema (goodDays : list string) : M (option (list Showing)) :=
  links <- initial ;;
  match links with
  | None => emit (ConsoleError "No links fetched") ;;; ret None
  | Some links =>
      let secondLink := nth_error links 1 in
      film <- forPush (fun goodDay => iterateMovieDates w secondLink goodDay) goodDays ;;
      emit (ConsoleLog "Scraping Cinema...OK") ;;;
      ret (Some film)
  end.

(** [extractRestaurant(cinemaInfo, dateInfo)]. *)
Definition extractRestaurant (cinemaInfo : option (list Showing)) (dateInfo : list string)
  : M (option (list string)) :=
  links <- initial ;;
  match links with
  | None => emit (ConsoleError "No links fetched") ;;; ret None
  | Some links =>
      let thirdLink := nth_error links 2 in
      restData <- restaurantAuthentication w thirdLink ;;
      restFree <- lift (sortAvailability w restData cinemaInfo dateInfo) ;;
      emit (ConsoleLog "Scraping Restaurant...OK") ;;;
      ret (Some restFree)
  end.

(** The template literal of [run]. *)
Definition result (date : string) (movie_ : option string) (timeOp_ : string)
           (restaurant : string) : string :=
  "On " ++ date ++ ", " ++ JS.dquote ++ JS.show movie_ ++ JS.dquote ++ " Begins at "
        ++ timeOp_ ++ ", and there is a free table between " ++ restaurant.

(** [Number(restaurant.split('-')[0])]. *)
Definition restaurantStartTime (restaurant : string) : JS.number :=
  JS.Number (JS.splitHead "-" restaurant).

(** The constant [restaurantTime] for a film that starts at
    [movieStartTime]. *)
Definition restaurantTime (restaurantInfo : list string) (movieStartTime : JS.number)
  : list string :=
  filter (fun restaurant => JS.strict_neq movieStartTime (restaurantStartTime restaurant))
         restaurantInfo.

(** One turn of the loop over [cinemaInfo]: what it pushes to [results].
    [restaurantInfo] is [undefined] when [extractRestaurant] had no
    links. *)
Definition cinemaResults (restaurantInfo : option (list string)) (date : string)
           (cinema : Showing) : error + list string :=
  match timeOp cinema with
  | JS.VString t =>
      let movieStartTime := JS.Number (JS.splitHead ":" t) in
      match restaurantInfo with
      | None => inl (TypeError "Cannot read properties of undefined (reading 'filter')")
      | Some restaurantInfo =>
          inr (map (result date (movie cinema) t) (restaurantTime restaurantInfo movieStartTime))
      end
  | JS.VUndefined =>
      inl (TypeError "Cannot read properties of undefined (reading 'split')")
  | JS.VNull =>
      inl (TypeError "Cannot read properties of null (reading 'split')")
  | _ => inl (TypeError "cinema.timeOp.split is not a function")
  end.

(** [a.flatMap(f)] for a callback that may throw. *)
Fixpoint concatE {A} (f : A -> error + list string) (l : list A) : error + list string :=
  match l with
  | [] => inr []
  | x :: r => ys <-! f x ;; zs <-! concatE f r ;; inr (ys ++ zs)%list
  end.

(** The array [results] after the two nested loops of [run]. *)
Definition results (dateInfo : list string) (cinemaInfo : option (list Showing))
           (restaurantInfo : option (list string)) : error + list string :=
  concatE (fun date =>
             match cinemaInfo with
             | None => inl (TypeError "cinemaInfo is not iterable")
             | Some cinemaInfo => concatE (cinemaResults restaurantInfo date) cinemaInfo
             end)
          dateInfo.

(** The constant [finalResult]. *)
Definition finalResult (results_ : list string) : string :=
  JS.newline ++ "Suggestions:" ++ JS.newline ++ JS.join JS.newline (JS.Set_of results_).

(** [run()]. *)
Definition run : M string :=
  emit (ConsoleLog "Scraping Links...OK") ;;;
  dateInfo <- extractDates ;;
  match dateInfo with
  | None => throw (TypeError "Cannot read properties of undefined (reading 'length')")
  | Some dateInfo =>
      if Nat.eqb (List.length dateInfo) 0 then ret "No Dates Available"
      else
        cinemaInfo <- extractCinema dateInfo ;;
        restaurantInfo <- extractRestaurant cinemaInfo dateInfo ;;
        results_ <- lift (results dateInfo cinemaInfo restaurantInfo) ;;
        ret (finalResult results_)
  end.

End Application.
End Application.

(** ** Vocabulary of the specification *)

Module Spec.

Import LinkScraper.

(** A decimal digit, and a text of decimal digits. *)
Definition isDecimal (c : ascii) : bool :=
  let n := JS.code c in ((48 <=? n) && (n <=? 57))%nat.

Fixpoint digitsOnly (s : string) : bool :=
  match s with
  | EmptyString => true
  | String c r => isDecimal c && digitsOnly r
  end.

(** The text of a number that is not negative. *)
Definition decimalText (z : Z) : string :=
  match z with
  | Zpos p => NilEmpty.string_of_uint (Pos.to_uint p)
  | _ => "0"
  end.

(** A URL is absolute when it starts with a scheme: a letter, then letters,
    digits, [+], [-] or [.], then a colon. *)
Definition isAlpha (c : ascii) : bool :=
  let n := JS.code c in
  (((65 <=? n) && (n <=? 90)) || ((97 <=? n) && (n <=? 122)))%nat.

Definition isSchemeChar (c : ascii) : bool :=
  let n := JS.code c in
  (isAlpha c || ((48 <=? n) && (n <=? 57)) || (n =? 43) || (n =? 45) || (n =? 46))%nat.

Fixpoint schemeEnds (s : string) : bool :=
  match s with
  | EmptyString => false
  | String c r => if Ascii.eqb c ":" then true else isSchemeChar c && schemeEnds r
  end.

Definition isAbsolute (u : string) : bool :=
  match u with
  | EmptyString => false
  | String c r => isAlpha c && schemeEnds r
  end.

(** The order of [sort]. *)
Definition le (a b : string) : Prop := String.leb a b = true.

(** A slot code matches a day when the two agree on the code's first three
    characters, whatever the case of either. *)
Definition matchesDay (code day : string) : bool :=
  JS.startsWith (JS.toLowerCase day) (JS.toLowerCase (JS.slice 0 3 code)).

(** A Showing that starts at [h]:[mm]. *)
Definition showingAt (h : Z) (mm : string) (title : option string) : Showing :=
  {| timeOp := JS.VString (twoDigits (JS.Num h) ++ ":" ++ mm); movie := title |}.

(** A slot code: three characters for the day, the start hour in two digits,
    then the rest. *)
Definition slotCode (day3 : string) (s : Z) (rest : string) : string :=
  day3 ++ twoDigits (JS.Num s) ++ rest.


(** Showings and reservations by their hours: [(h, mm, title)] and
    [(s, e)]. *)
Definition showingOf (c : Z * string * option string) : Showing :=
  let '(h, mm, title) := c in showingAt h mm title.

(** The hour of such a Showing. *)
Definition hourOf (c : Z * string * option string) : Z := fst (fst c).









(** An event of the link and date stages: a plain GET, a line on the error
    console, or the line that ends the date stage. *)
Definition dateStageEvent (e : event) : Prop :=
  match e with
  | Fetch rq => method rq = "GET" /\ body rq = None /\ headers rq = []
  | ConsoleLog line => line = "Scraping Date...OK"
  | ConsoleError _ => True
  end.

Definition anyEvent (e : event) : Prop := True.

(** A computation only adds events, all in [P]. *)
Definition emits (P : event -> Prop) {A} (m : M A) : Prop :=
  forall t r t', m t = (r, t') -> exists evs, t' = (t ++ evs)%list /\ Forall P evs.

End Spec.

(** ** A site to run on: the calendars, the cinema and the restaurant *)

Module Fixture.

Definition page (text_ : string) : response :=
  {| resp_headers := []; resp_text := text_;
     resp_json := inl (SyntaxError "Unexpected token < in JSON at position 0") |}.

Definition seat (status_ : Z) (time_ : string) : entry :=
  {| status := JS.VNumber (JS.Num status_); time := JS.VString time_ |}.

Definition answer (content : list entry) : response :=
  {| resp_headers := []; resp_text := ""; resp_json := inr content |}.

Fixpoint lookup {A} (key : string) (table : list (string * A)) : option A :=
  match table with
  | [] => None
  | (k, v) :: r => if String.eqb k key then Some v else lookup key r
  end.

Definition pages : list (string * response) :=
  [ ("http://s/", page "start");
    ("http://s/calendar/", page "calendar");
    ("http://s/calendar/peter.html", page "peter");
    ("http://s/calendar/paul.html", page "paul");
    ("http://s/calendar/mary.html", page "mary");
    ("http://s/cinema", page "cinema");
    ("http://s/cinema/check?day=05&movie=01", answer [seat 0 "16:00"; seat 0 "18:00"]);
    ("http://s/cinema/check?day=05&movie=02", answer [seat 1 "16:00"; seat 0 "18:00"]);
    ("http://s/cinema/check?day=05&movie=03", answer [seat 1 "16:00"; seat 0 "18:00"]);
    ("http://s/dinner/login/booking", page "booking");
    ("http://s/dinnernull", page "Not Found") ].

Definition movies : list option_element :=
  [ {| value := ""; text := "--- Pick a Movie ---" |};
    {| value := "01"; text := "The Flying Deuces" |};
    {| value := "02"; text := "Keep Your Seats, Please" |};
    {| value := "03"; text := "A Day at the Races" |} ].

Definition weekend : list option_element :=
  [ {| value := ""; text := "--- Pick a Day ---" |};
    {| value := "05"; text := "Friday" |};
    {| value := "06"; text := "Saturday" |};
    {| value := "07"; text := "Sunday" |} ].

(** The site, with the anchors of the calendar page, the [td] cells of
    Mary's calendar and the headers of the login response. *)
Definition site (friends mary : list string) (loginHeaders : list (string * string)) : World :=
  {| fetch := fun _ rq =>
       if String.eqb (method rq) "POST" then
         if String.eqb (url rq) "http://s/dinner/login"
         then inr {| resp_headers := loginHeaders; resp_text := "";
                     resp_json := inl (SyntaxError "Unexpected end of JSON input") |}
         else inl (TypeError "fetch failed")
       else
         match lookup (url rq) pages with
         | Some r => inr r
         | None => inl (TypeError "fetch failed")
         end;
     location_href := JS.show;
     anchors := fun html _ =>
       if String.eqb html "start"
       then ["http://s/dinner"; "http://s/calendar/"; "http://s/cinema"; "http://s/dinner"]
       else if String.eqb html "calendar" then friends
       else [];
     URL_href := fun h base => Some (base ++ JS.sliceFrom 2 h);
     th_text := fun html =>
       if String.eqb html "peter" || String.eqb html "paul" || String.eqb html "mary"
       then ["Friday"; "Saturday"; "Sunday"] else [];
     td_text := fun html =>
       if String.eqb html "peter" then ["ok"; "--"; "OK"]
       else if String.eqb html "paul" then ["OK"; "ok"; "--"]
       else if String.eqb html "mary" then mary
       else [];
     select_options := fun html id =>
       if String.eqb html "cinema" then
         if String.eqb id "movie" then Some movies
         else if String.eqb id "day" then Some weekend
         else None
       else None;
     has_element := fun html id =>
       String.eqb html "cinema" && (String.eqb id "movie" || String.eqb id "day");
     group1_values := fun html =>
       if String.eqb html "booking"
       then ["fri1416"; "fri1618"; "fri1820"; "sat1820"; "sun2022"]
       else [] |}.

Definition loginHeaders : list (string * string) :=
  [("set-cookie", "session=42"); ("location", "/login/booking")].

Definition threeFriends : list string :=
  ["http://s/calendar/peter.html"; "http://s/calendar/paul.html";
   "http://s/calendar/mary.html"].

(** Mary is free on Friday, or on no day. *)
Definition friday : World := site threeFriends ["ok"; "ok"; "ok"] loginHeaders.
Definition noDay : World := site threeFriends ["--"; "--"; "--"] loginHeaders.
(** The login answers without headers. *)
Definition noHeaders : World := site threeFriends ["ok"; "ok"; "ok"] [].
(** The calendar page links to no calendar. *)
Definition noCalendar : World := site [] ["ok"; "ok"; "ok"] loginHeaders.

Definition start : option string := Some "http://s/".

(** The answer of the check endpoint in the specification's example. *)
Definition soldOutAtTen : list entry := [seat 0 "10:00"; seat 1 "16:00"].

Definition keepYourSeats : string :=
  "On Friday, " ++ JS.dquote ++ "Keep Your Seats, Please" ++ JS.dquote
    ++ " Begins at 16:00, and there is a free table between 18-20".
Definition dayAtTheRaces : string :=
  "On Friday, " ++ JS.dquote ++ "A Day at the Races" ++ JS.dquote
    ++ " Begins at 16:00, and there is a free table between 18-20".
Definition output : string :=
  JS.newline ++ "Suggestions:" ++ JS.newline ++ keepYourSeats ++ JS.newline ++ dayAtTheRaces.

End Fixture.

(** ** Vocabulary for the stages as wholes, and more sites *)

Module Cases.

Import LinkScraper.

(** The answers of the sites do not depend on what was asked before. *)
Definition static (w : World) : Prop :=
  forall t t' rq, fetch w t rq = fetch w t' rq.

(** What [parseHtmlDates(u)] returns on such a site. *)
Definition okDaysAt (w : World) (u : string) : error + list string :=
  match fetch w [] (GET u) with
  | inr response =>
      okDays (th_text w (resp_text response)) (td_text w (resp_text response))
  | inl e => inl e
  end.

(** The request for one calendar. *)
Definition calendarRequest (u : string) : event := Fetch (GET u).

(** The URL [getCheckUrl] builds for the movie number [movie]. *)
Definition checkUrl (secondLink : option string) (day : string) (movie : nat) : string :=
  JS.show secondLink ++ "/check?day=" ++ day ++ "&movie="
          ++ twoDigits (JS.Num (Z.of_nat movie)).

(** What [getCheckUrl] returns for a request made after [t]. *)
Definition checkAnswer (w : World) (t : list event) (u : string) : error + list entry :=
  match fetch w t (GET u) with
  | inr response => resp_json response
  | inl e => inl e
  end.

(** The Showing that the loop makes of the entry [num] of the answer for
    the movie number [movie]. *)
Definition showing (options : list option_element) (movie : nat) (num : entry) : Showing :=
  {| timeOp := time num;
     movie := movieTitle options (twoDigits (JS.Num (Z.of_nat movie))) |}.

(** The Showings of the answers [content], by movie number: those of the
    entries whose status is not 0, movie after movie. *)
Definition showingsOf (options : list option_element) (content : nat -> list entry)
  : list Showing :=
  flat_map (fun movie => map (showing options movie) (removeZero (content movie)))
           (seq 1 (List.length options - 1)).

(** The time of a film as text, for a film whose time is a string. *)
Definition timeText (film : Showing) : string :=
  match timeOp film with
  | JS.VString s => s
  | _ => EmptyString
  end.

Definition hasTimeText (film : Showing) : Prop :=
  exists s, timeOp film = JS.VString s.

(** The reservations [sortAvailability] makes for one film. *)
Definition windowsFor (filterDays_ : list string) (film : Showing) : list string :=
  map window
      (filteredTimes filterDays_ (JS.plus (JS.parseInt (JS.splitHead ":" (timeText film))) 2)).

(** The elements of an array, each at its first place. *)
Fixpoint firstOccurrences (a : list string) : list string :=
  match a with
  | [] => []
  | x :: r => x :: filter (fun y => negb (String.eqb y x)) (firstOccurrences r)
  end.



(** The request for the start page. *)
Definition startRequest (argv2 : option string) : event := Fetch (GET (JS.show argv2)).

(** The answers of the check endpoint on Friday, by movie number. *)
Definition fridayContent (movie : nat) : list entry :=
  match movie with
  | 1 => [Fixture.seat 0 "16:00"; Fixture.seat 0 "18:00"]
  | _ => [Fixture.seat 1 "16:00"; Fixture.seat 0 "18:00"]
  end.

(** The calendar page links to a calendar that is not there. *)
Definition lostCalendar : World :=
  Fixture.site
    ["http://s/calendar/peter.html"; "http://s/calendar/nobody.html";
     "http://s/calendar/mary.html"]
    ["ok"; "--"; "ok"] Fixture.loginHeaders.

(** The cinema lists no movie beside the placeholder. *)
Definition emptyCinema : World :=
  {| fetch := fetch Fixture.friday;
     location_href := location_href Fixture.friday;
     anchors := anchors Fixture.friday;
     URL_href := URL_href Fixture.friday;
     th_text := th_text Fixture.friday;
     td_text := td_text Fixture.friday;
     select_options := fun html id =>
       if String.eqb html "cinema" && String.eqb id "movie"
       then Some [ {| value := ""; text := "--- Pick a Movie ---" |} ]
       else select_options Fixture.friday html id;
     has_element := has_element Fixture.friday;
     group1_values := group1_values Fixture.friday |}.

(** The start page has no anchor that the selector takes. *)
Definition bareStart : World :=
  {| fetch := fetch Fixture.friday;
     location_href := location_href Fixture.friday;
     anchors := fun _ _ => [];
     URL_href := URL_href Fixture.friday;
     th_text := th_text Fixture.friday;
     td_text := td_text Fixture.friday;
     select_options := select_options Fixture.friday;
     has_element := has_element Fixture.friday;
     group1_values := group1_values Fixture.friday |}.

(** The site with another list of movie options, and with the answers
    [answers] of the check endpoint, by URL. *)
Definition cinemaOf (movies : list option_element) (answers : list (string * list entry))
  : World :=
  {| fetch := fun t rq =>
       match Fixture.lookup (url rq) answers with
       | Some content => inr (Fixture.answer content)
       | None => fetch Fixture.friday t rq
       end;
     location_href := location_href Fixture.friday;
     anchors := anchors Fixture.friday;
     URL_href := URL_href Fixture.friday;
     th_text := th_text Fixture.friday;
     td_text := td_text Fixture.friday;
     select_options := fun html id =>
       if String.eqb html "cinema" && String.eqb id "movie"
       then Some movies
       else select_options Fixture.friday html id;
     has_element := has_element Fixture.friday;
     group1_values := group1_values Fixture.friday |}.

(** One movie, sold out at ten. *)
Definition oneMovie : World :=
  cinemaOf
    [ {| value := ""; text := "--- Pick a Movie ---" |};
      {| value := "01"; text := "The Flying Deuces" |} ]
    [ ("http://s/cinema/check?day=05&movie=01", Fixture.soldOutAtTen) ].

(** Two movies whose options are not in the order of their values, and one
    of the two values is 03. *)
Definition shuffledMovies : list option_element :=
  [ {| value := ""; text := "--- Pick a Movie ---" |};
    {| value := "03"; text := "A Day at the Races" |};
    {| value := "01"; text := "The Flying Deuces" |} ].

Definition shuffledCinema : World :=
  cinemaOf shuffledMovies
    [ ("http://s/cinema/check?day=05&movie=01", Fixture.soldOutAtTen);
      ("http://s/cinema/check?day=05&movie=02", [Fixture.seat 1 "18:00"]) ].

(** The start page names the cinema and the restaurant by relative links,
    the restaurant twice. *)
Definition relativeStart : World :=
  {| fetch := fetch Fixture.friday;
     location_href := location_href Fixture.friday;
     anchors := fun html url =>
       if String.eqb html "start"
       then ["./dinner"; "http://s/calendar/"; "./cinema"; "./dinner"]
       else anchors Fixture.friday html url;
     URL_href := URL_href Fixture.friday;
     th_text := th_text Fixture.friday;
     td_text := td_text Fixture.friday;
     select_options := select_options Fixture.friday;
     has_element := has_element Fixture.friday;
     group1_values := group1_values Fixture.friday |}.

Definition dateLine (e : event) : bool :=
  match e with
  | ConsoleLog line => String.eqb line "Scraping Date...OK"
  | _ => false
  end.

(** The start page is gone once the date stage is over. *)
Definition startGone : World :=
  {| fetch := fun t rq =>
       if existsb dateLine t && String.eqb (url rq) "http://s/"
       then inl (TypeError "fetch failed")
       else fetch Fixture.friday t rq;
     location_href := location_href Fixture.friday;
     anchors := anchors Fixture.friday;
     URL_href := URL_href Fixture.friday;
     th_text := th_text Fixture.friday;
     td_text := td_text Fixture.friday;
     select_options := select_options Fixture.friday;
     has_element := has_element Fixture.friday;
     group1_values := group1_values Fixture.friday |}.

End Cases.

(** ** The built-ins and the two classes on examples *)

Example parseInt_16 : JS.parseInt "16" = JS.Num 16.
Proof. reflexivity. Qed.
Example parseInt_08 : JS.parseInt "08" = JS.Num 8.
Proof. reflexivity. Qed.
Example parseInt_empty : JS.parseInt "" = JS.NaN.
Proof. reflexivity. Qed.
Example parseInt_hex : JS.parseInt " -0x1f;" = JS.Num (-31).
Proof. reflexivity. Qed.
Example Number_16 : JS.Number " 16 " = JS.Num 16.
Proof. reflexivity. Qed.
Example Number_empty : JS.Number "" = JS.Num 0.
Proof. reflexivity. Qed.
Example Number_bad : JS.Number "16h" = JS.NaN.
Proof. reflexivity. Qed.
Example Number_hex : JS.Number "0x12" = JS.Num 18.
Proof. reflexivity. Qed.
Example Number_signed : JS.Number "-7" = JS.Num (-7).
Proof. reflexivity. Qed.
Example Number_signed_hex : JS.Number "-0x12" = JS.NaN.
Proof. reflexivity. Qed.
Example toString_18 : JS.number_toString (JS.Num 18) = "18".
Proof. reflexivity. Qed.
Example toString_0 : JS.number_toString (JS.Num 0) = "0".
Proof. reflexivity. Qed.
Example toString_neg : JS.number_toString (JS.Num (-5)) = "-5".
Proof. reflexivity. Qed.
Example padStart_5 : JS.padStart 2 "0" "5" = "05".
Proof. reflexivity. Qed.
Example sort_ex : JS.sort ["b"; "a"; "b"; "B"] = ["B"; "a"; "b"; "b"].
Proof. reflexivity. Qed.
Example Set_ex : JS.Set_of ["b"; "a"; "b"; "c"; "a"] = ["b"; "a"; "c"].
Proof. reflexivity. Qed.

Example iterateMovieDates_friday :
  fst (LinkScraper.iterateMovieDates Fixture.friday (Some "http://s/cinema") "Friday" [])
  = inr [ {| LinkScraper.timeOp := JS.VString "16:00";
             LinkScraper.movie := Some "Keep Your Seats, Please" |};
          {| LinkScraper.timeOp := JS.VString "16:00";
             LinkScraper.movie := Some "A Day at the Races" |} ].
Proof. vm_compute. reflexivity. Qed.

Example run_friday :
  fst (Application.run Fixture.friday Fixture.start []) = inr Fixture.output.
Proof. vm_compute. reflexivity. Qed.

Example run_noDay :
  fst (Application.run Fixture.noDay Fixture.start []) = inr "No Dates Available".
Proof. vm_compute. reflexivity. Qed.

Example extractDates_lostCalendar :
  fst (Application.extractDates Cases.lostCalendar Fixture.start []) = inr (Some ["Friday"; "Sunday"]).
Proof. vm_compute. reflexivity. Qed.

Example run_emptyCinema :
  fst (Application.run Cases.emptyCinema Fixture.start []) = inr (JS.newline ++ "Suggestions:" ++ JS.newline).
Proof. vm_compute. reflexivity. Qed.

Example run_startGone :
  fst (Application.run Cases.startGone Fixture.start [])
  = inl (TypeError "cinemaInfo is not iterable").
Proof. vm_compute. reflexivity. Qed.

(** ** The order of code units and [sort] *)

Lemma ascii_compare_lt_trans a b c :
  Ascii.compare a b = Lt -> Ascii.compare b c = Lt -> Ascii.compare a c = Lt.
Proof.
  unfold Ascii.compare. rewrite !N.compare_lt_iff. lia.
Qed.

Lemma ascii_compare_refl a : Ascii.compare a a = Eq.
Proof. unfold Ascii.compare. apply N.compare_refl. Qed.

Lemma compare_lt_trans : forall a b c,
  String.compare a b = Lt -> String.compare b c = Lt -> String.compare a c = Lt.
Proof.
  induction a as [|x a IH]; intros [|y b] [|z c]; simpl; try congruence.
  destruct (Ascii.compare x y) eqn:Hxy; try discriminate.
  - apply Ascii.compare_eq_iff in Hxy. subst y.
    destruct (Ascii.compare x z) eqn:Hxz; try congruence. apply IH.
  - destruct (Ascii.compare y z) eqn:Hyz; try discriminate.
    + apply Ascii.compare_eq_iff in Hyz. subst z. now rewrite Hxy.
    + now rewrite (ascii_compare_lt_trans _ _ _ Hxy Hyz).
Qed.

Lemma compare_refl : forall a, String.compare a a = Eq.
Proof. induction a; simpl; [easy|]. now rewrite ascii_compare_refl. Qed.

Lemma leb_trans a b c : Spec.le a b -> Spec.le b c -> Spec.le a c.
Proof.
  unfold Spec.le, String.leb.
  destruct (String.compare a b) eqn:Hab; try discriminate;
  destruct (String.compare b c) eqn:Hbc; try discriminate; intros _ _.
  - apply String.compare_eq_iff in Hab, Hbc. subst. now rewrite compare_refl.
  - apply String.compare_eq_iff in Hab. subst. now rewrite Hbc.
  - apply String.compare_eq_iff in Hbc. subst. now rewrite Hab.
  - now rewrite (compare_lt_trans _ _ _ Hab Hbc).
Qed.

Lemma insert_perm x : forall a, Permutation (JS.insert x a) (x :: a).
Proof.
  induction a as [|y r IH]; simpl; [reflexivity|].
  destruct (String.leb x y); [reflexivity|].
  rewrite IH. apply perm_swap.
Qed.

Lemma sort_perm : forall a, Permutation (JS.sort a) a.
Proof.
  induction a as [|x r IH]; simpl; [constructor|].
  unfold JS.sort in *. simpl. rewrite insert_perm. now constructor.
Qed.

Lemma insert_sorted x : forall a,
  StronglySorted Spec.le a -> StronglySorted Spec.le (JS.insert x a).
Proof.
  induction a as [|y r IH]; intros Hs; simpl.
  - repeat constructor.
  - inversion Hs as [|? ? Hr Hy]; subst.
    destruct (String.leb x y) eqn:Hxy.
    + constructor; [assumption|]. constructor; [exact Hxy|].
      eapply Forall_impl; [|exact Hy]. intros z Hz. eapply leb_trans; eassumption.
    + constructor; [now apply IH|].
      assert (Hyx : Spec.le y x).
      { destruct (String.leb_total x y) as [H|H]; [congruence|exact H]. }
      eapply Permutation_Forall; [symmetry; apply insert_perm|].
      now constructor.
Qed.

Lemma sort_sorted : forall a, StronglySorted Spec.le (JS.sort a).
Proof.
  induction a as [|x r IH]; [constructor|]. now apply insert_sorted.
Qed.

(** A sorted array is the only sorted arrangement of its elements. *)
Lemma sorted_perm_eq : forall a b,
  StronglySorted Spec.le a -> StronglySorted Spec.le b -> Permutation a b -> a = b.
Proof.
  induction a as [|x a IH]; intros b Ha Hb Hp.
  - apply Permutation_nil in Hp. now subst.
  - destruct b as [|y b]; [now apply Permutation_sym, Permutation_nil in Hp|].
    inversion Ha as [|? ? Ha' Hx]; inversion Hb as [|? ? Hb' Hy]; subst.
    assert (x = y) as ->.
    { assert (Hxin : In x (y :: b)) by (eapply Permutation_in; [exact Hp|now left]).
      assert (Hyin : In y (x :: a)) by (eapply Permutation_in; [symmetry; exact Hp|now left]).
      destruct Hxin as [->|Hxin]; [reflexivity|].
      destruct Hyin as [->|Hyin]; [reflexivity|].
      rewrite Forall_forall in Hx, Hy.
      apply String.leb_antisym; [now apply Hx | now apply Hy]. }
    f_equal. apply IH; try assumption. now apply Permutation_cons_inv in Hp.
Qed.

Lemma sort_of_perm a b : Permutation a b -> JS.sort a = JS.sort b.
Proof.
  intros Hp. apply sorted_perm_eq; try apply sort_sorted.
  rewrite !sort_perm. exact Hp.
Qed.

Lemma sort_of_sorted a : StronglySorted Spec.le a -> JS.sort a = a.
Proof.
  intros Hs. apply sorted_perm_eq; [apply sort_sorted|exact Hs|apply sort_perm].
Qed.

(** ** Sets of strings *)

Lemma includes_In a x : JS.includes a x = true <-> In x a.
Proof.
  unfold JS.includes. rewrite existsb_exists. split.
  - intros (y & Hy & He). apply String.eqb_eq in He. now subst.
  - intros H. exists x. split; [exact H|apply String.eqb_refl].
Qed.

Lemma Set_add_In s x y : In y (JS.Set_add s x) <-> In y s \/ y = x.
Proof.
  unfold JS.Set_add. destruct (JS.includes s x) eqn:Hi.
  - apply includes_In in Hi. split; [auto|]. intros [H| ->]; assumption.
  - rewrite in_app_iff. simpl. intuition.
Qed.

Lemma Set_add_NoDup s x : NoDup s -> NoDup (JS.Set_add s x).
Proof.
  intros Hs. unfold JS.Set_add. destruct (JS.includes s x) eqn:Hi; [exact Hs|].
  assert (~ In x s).
  { intros H. apply includes_In in H. congruence. }
  apply NoDup_app; [exact Hs|repeat constructor; simpl; tauto|].
  intros y Hy [<-|[]]. contradiction.
Qed.

Lemma fold_Set_add_In a : forall s y,
  In y (fold_left JS.Set_add a s) <-> In y s \/ In y a.
Proof.
  induction a as [|x r IH]; intros s y; simpl; [tauto|].
  rewrite IH, Set_add_In. intuition.
Qed.

Lemma fold_Set_add_NoDup a : forall s, NoDup s -> NoDup (fold_left JS.Set_add a s).
Proof.
  induction a as [|x r IH]; intros s Hs; simpl; [exact Hs|].
  apply IH. now apply Set_add_NoDup.
Qed.

Lemma Set_of_In a y : In y (JS.Set_of a) <-> In y a.
Proof. unfold JS.Set_of. rewrite fold_Set_add_In. simpl. tauto. Qed.

Lemma Set_of_NoDup a : NoDup (JS.Set_of a).
Proof. apply fold_Set_add_NoDup. constructor. Qed.

Lemma StronglySorted_app_remove {A} (R : A -> A -> Prop) s x a :
  StronglySorted R (s ++ x :: a) -> StronglySorted R (s ++ a).
Proof.
  induction s as [|y s IH]; simpl; intros H; inversion H; subst; [assumption|].
  constructor; [now apply IH|].
  rewrite Forall_app in *. destruct H3 as [H3 H4]. inversion H4; subst. auto.
Qed.

Lemma fold_Set_add_sorted (R : string -> string -> Prop) a : forall s,
  StronglySorted R (s ++ a) -> StronglySorted R (fold_left JS.Set_add a s).
Proof.
  induction a as [|x r IH]; intros s Hs; simpl.
  - now rewrite List.app_nil_r in Hs.
  - apply IH. unfold JS.Set_add. destruct (JS.includes s x).
    + eapply StronglySorted_app_remove; exact Hs.
    + now rewrite <- List.app_assoc.
Qed.

Lemma Set_of_sorted R a : StronglySorted R a -> StronglySorted R (JS.Set_of a).
Proof. intros H. now apply fold_Set_add_sorted. Qed.

Lemma fold_Set_add_fixed a : forall s,
  NoDup (s ++ a) -> fold_left JS.Set_add a s = (s ++ a)%list.
Proof.
  induction a as [|x r IH]; intros s Hs; simpl.
  - now rewrite List.app_nil_r.
  - assert (Hx : JS.includes s x = false).
    { destruct (JS.includes s x) eqn:Hi; [|reflexivity].
      apply includes_In in Hi. apply NoDup_remove_2 in Hs.
      exfalso. apply Hs. apply in_or_app. now left. }
    unfold JS.Set_add at 2. rewrite Hx.
    rewrite IH; rewrite <- List.app_assoc; [reflexivity|exact Hs].
Qed.

Lemma Set_of_fixed a : NoDup a -> JS.Set_of a = a.
Proof. intros H. now apply fold_Set_add_fixed. Qed.

(** ** Callbacks that may throw *)

Lemma mapE_perm {A B} (f : A -> error + B) a b l :
  Permutation a b -> mapE f a = inr l ->
  exists l', mapE f b = inr l' /\ Permutation l l'.
Proof.
  intros Hp. revert l.
  induction Hp as [|x a b Hp IH|x y a|a b c Hp1 IH1 Hp2 IH2]; intros l0 H; simpl in *.
  - exists l0. split; [exact H|]. reflexivity.
  - destruct (f x) as [e|y]; [discriminate|]. simpl in *.
    destruct (mapE f a) as [e|ys]; [discriminate|]. simpl in *. injection H as <-.
    destruct (IH ys eq_refl) as (zs & -> & Hzs). simpl.
    exists (y :: zs). split; [reflexivity|]. now constructor.
  - destruct (f y) as [e|y']; [discriminate|]. simpl in *.
    destruct (f x) as [e|x']; [discriminate|]. simpl in *.
    destruct (mapE f a) as [e|ys]; [discriminate|]. simpl in *. injection H as <-.
    exists (x' :: y' :: ys). split; [reflexivity|]. apply perm_swap.
  - destruct (IH1 _ H) as (l1 & H1 & P1).
    destruct (IH2 _ H1) as (l2 & H2 & P2).
    exists l2. split; [exact H2|]. now transitivity l1.
Qed.

Lemma mapE_id_on {A} (f : A -> error + A) l :
  (forall x, In x l -> f x = inr x) -> mapE f l = inr l.
Proof.
  induction l as [|x r IH]; intros H; simpl; [reflexivity|].
  rewrite (H x (or_introl eq_refl)). simpl. rewrite IH; [reflexivity|].
  intros y Hy. apply H. now right.
Qed.

Lemma mapE_Forall {A B} (f : A -> error + B) (P : B -> Prop) l :
  (forall x, In x l -> exists y, f x = inr y /\ P y) ->
  exists ys, mapE f l = inr ys /\ Forall P ys.
Proof.
  induction l as [|x r IH]; intros H; simpl.
  - exists []. split; [reflexivity|constructor].
  - destruct (H x (or_introl eq_refl)) as (y & -> & Hy). simpl.
    destruct IH as (ys & -> & Hys); [intros z Hz; apply H; now right|]. simpl.
    exists (y :: ys). split; [reflexivity|now constructor].
Qed.

Lemma mapE_In {A B} (f : A -> error + B) l : forall m,
  mapE f l = inr m ->
  forall y, In y m <-> exists x, In x l /\ f x = inr y.
Proof.
  induction l as [|x r IH]; intros m H y; cbn [mapE] in H.
  - injection H as <-. split; [intros []|intros (x & [] & _)].
  - destruct (f x) as [e|y0] eqn:Hx; [discriminate|]. cbn [bindE] in H.
    destruct (mapE f r) as [e|ys]; [discriminate|]. cbn [bindE] in H.
    injection H as <-. specialize (IH ys eq_refl y). split.
    + intros [<-|Hin]; [exists x; split; [now left|exact Hx]|].
      destruct (proj1 IH Hin) as (x' & Hx' & Hf). exists x'. split; [now right|exact Hf].
    + intros (x' & [<-|Hin] & Hf); [left; congruence|].
      right. apply IH. now exists x'.
Qed.

(** ** extractLinks *)

Lemma absolute_not_relative u : Spec.isAbsolute u = true -> JS.startsWith u "./" = false.
Proof.
  destruct u as [|c r]; [discriminate|]. cbn [Spec.isAbsolute JS.startsWith]. intros H.
  apply andb_prop in H. destruct H as [H _].
  destruct (Ascii.eqb_spec "." c) as [<-|]; [discriminate H|reflexivity].
Qed.

Section Links.

Variable w : World.

Lemma uniqueLinks_perm base hrefs hrefs' l :
  Permutation hrefs hrefs' ->
  LinkScraper.uniqueLinks w base hrefs = inr l ->
  LinkScraper.uniqueLinks w base hrefs' = inr l.
Proof.
  intros Hp. unfold LinkScraper.uniqueLinks, LinkScraper.links.
  destruct (mapE _ hrefs) as [e|m] eqn:Hm; simpl; [discriminate|].
  intros [= <-].
  destruct (mapE_perm _ _ _ _ Hp Hm) as (m' & -> & Pm). simpl.
  now rewrite (sort_of_perm _ _ Pm).
Qed.

Lemma extractLinks_unfold url t :
  LinkScraper.extractLinks w url t =
  (match fetch w t (GET (JS.show url)) with
   | inr response =>
       LinkScraper.uniqueLinks w (location_href w url) (anchors w (resp_text response) url)
   | inl e => inl e
   end, (t ++ [Fetch (GET (JS.show url))])%list).
Proof.
  unfold LinkScraper.extractLinks, bind, LinkScraper.fetch_, lift.
  destruct (fetch w t _); reflexivity.
Qed.

(** C8. Once the page is fetched, and given the DOM's contract for [href]
    (an anchor's [href] is an absolute URL, or starts with [./] and then
    resolves against the base to an absolute URL), [extractLinks] returns
    the links of the page: a URL is in the list iff it is the [href] of a
    selected anchor, resolved against the base when it starts with [./].
    The list is sorted in the order of code units, free of duplicates and
    made of absolute URLs. The same anchors in any order give the same
    list, so does any other fetch of the same HTML, and extracting from the
    list itself gives the list again. *)
Theorem extractLinks_sorted_unique url t response :
  fetch w t (GET (JS.show url)) = inr response ->
  let baseUrl := location_href w url in
  let hrefs := anchors w (resp_text response) url in
  (forall h, In h hrefs -> JS.startsWith h "./" = true ->
             exists u, URL_href w h baseUrl = Some u /\ Spec.isAbsolute u = true) ->
  (forall h, In h hrefs -> JS.startsWith h "./" = false -> Spec.isAbsolute h = true) ->
  exists l,
    LinkScraper.extractLinks w url t = (inr l, (t ++ [Fetch (GET (JS.show url))])%list)
    /\ (forall u, In u l
                  <-> exists h, In h hrefs
                                /\ (if JS.startsWith h "./"
                                    then URL_href w h baseUrl = Some u
                                    else u = h))
    /\ StronglySorted (fun a b => String.leb a b = true) l
    /\ NoDup l
    /\ Forall (fun u => Spec.isAbsolute u = true) l
    /\ (forall hrefs', Permutation hrefs hrefs' ->
                       LinkScraper.uniqueLinks w baseUrl hrefs' = inr l)
    /\ (forall t' response',
           fetch w t' (GET (JS.show url)) = inr response' ->
           resp_text response' = resp_text response ->
           fst (LinkScraper.extractLinks w url t') = inr l)
    /\ LinkScraper.uniqueLinks w baseUrl l = inr l.
Proof.
  intros Hf baseUrl hrefs Hrel Habs.
  destruct (mapE_Forall (LinkScraper.absolute w baseUrl)
              (fun u => Spec.isAbsolute u = true) hrefs) as (m & Hm & Hall).
  { intros h Hh. unfold LinkScraper.absolute.
    destruct (JS.startsWith h "./") eqn:Hs.
    - destruct (Hrel h Hh Hs) as (u & -> & Hu). now exists u.
    - exists h. split; [reflexivity|]. now apply Habs. }
  set (l := JS.Set_of (JS.sort m)).
  assert (Hu : LinkScraper.uniqueLinks w baseUrl hrefs = inr l).
  { unfold LinkScraper.uniqueLinks, LinkScraper.links. now rewrite Hm. }
  assert (Hl : Forall (fun u => Spec.isAbsolute u = true) l).
  { apply Forall_forall. intros u Hin. rewrite Forall_forall in Hall. apply Hall.
    unfold l in Hin. rewrite Set_of_In in Hin.
    eapply Permutation_in; [apply sort_perm|exact Hin]. }
  assert (Hmem : forall u, In u l
                          <-> exists h, In h hrefs
                                       /\ (if JS.startsWith h "./"
                                           then URL_href w h baseUrl = Some u
                                           else u = h)).
  { intros u. unfold l. rewrite Set_of_In.
    transitivity (In u m).
    - split; apply Permutation_in; [apply sort_perm|apply Permutation_sym, sort_perm].
    - rewrite (mapE_In _ _ _ Hm u). unfold LinkScraper.absolute.
      split; intros (h & Hh & H); exists h; (split; [exact Hh|]);
        destruct (JS.startsWith h "./"); try destruct (URL_href w h baseUrl);
        congruence. }
  exists l. split; [|split; [exact Hmem|]]; [|repeat split].
  - rewrite extractLinks_unfold, Hf. fold baseUrl hrefs. now rewrite Hu.
  - apply Set_of_sorted, sort_sorted.
  - apply Set_of_NoDup.
  - exact Hl.
  - intros hrefs' Hp. now apply (uniqueLinks_perm _ hrefs).
  - intros t' response' Hf' Ht. rewrite extractLinks_unfold, Hf', Ht. exact Hu.
  - unfold LinkScraper.uniqueLinks, LinkScraper.links.
    rewrite mapE_id_on.
    + simpl. rewrite sort_of_sorted by (apply Set_of_sorted, sort_sorted).
      now rewrite Set_of_fixed by apply Set_of_NoDup.
    + intros u Hin. unfold LinkScraper.absolute.
      rewrite Forall_forall in Hl. now rewrite (absolute_not_relative u (Hl u Hin)).
Qed.

End Links.

(** A start page with four anchors, two of them relative and one of these
    twice: three links, the relative ones resolved against the base. *)
Lemma extractLinks_start_page :
  fetch Cases.relativeStart [] (GET (JS.show Fixture.start)) = inr (Fixture.page "start")
  /\ anchors Cases.relativeStart "start" Fixture.start
     = ["./dinner"; "http://s/calendar/"; "./cinema"; "./dinner"]
  /\ fst (LinkScraper.extractLinks Cases.relativeStart Fixture.start [])
     = inr ["http://s/calendar/"; "http://s/cinema"; "http://s/dinner"]
  /\ exists l,
      LinkScraper.extractLinks Cases.relativeStart Fixture.start []
      = (inr l, [Fetch (GET (JS.show Fixture.start))])
      /\ (forall u, In u l
                    <-> exists h,
                          In h ["./dinner"; "http://s/calendar/"; "./cinema"; "./dinner"]
                          /\ (if JS.startsWith h "./"
                              then URL_href Cases.relativeStart h "http://s/" = Some u
                              else u = h))
      /\ StronglySorted (fun a b => String.leb a b = true) l
      /\ NoDup l
      /\ Forall (fun u => Spec.isAbsolute u = true) l
      /\ (forall hrefs',
             Permutation (anchors Cases.relativeStart "start" Fixture.start) hrefs' ->
             LinkScraper.uniqueLinks Cases.relativeStart "http://s/" hrefs' = inr l)
      /\ (forall t' response',
             fetch Cases.relativeStart t' (GET (JS.show Fixture.start)) = inr response' ->
             resp_text response' = "start" ->
             fst (LinkScraper.extractLinks Cases.relativeStart Fixture.start t') = inr l)
      /\ LinkScraper.uniqueLinks Cases.relativeStart "http://s/" l = inr l.
Proof.
  split; [reflexivity|]. split; [reflexivity|]. split; [reflexivity|].
  apply (extractLinks_sorted_unique Cases.relativeStart Fixture.start []
           (Fixture.page "start") eq_refl).
  - intros h Hh Hs. simpl in Hh.
    destruct Hh as [<-|[<-|[<-|[<-|[]]]]]; try discriminate Hs;
      eexists; split; reflexivity.
  - intros h Hh Hs. simpl in Hh.
    destruct Hh as [<-|[<-|[<-|[<-|[]]]]]; try discriminate Hs; reflexivity.
Defined.

(** ** extractDates: the common days *)

Lemma goodDay_In first rest day :
  In day (filter (fun day => forallb (fun okDays => JS.includes okDays day) rest) first)
  <-> forall okDays, In okDays (first :: rest) -> In day okDays.
Proof.
  rewrite filter_In, forallb_forall. split.
  - intros [Hf Hr] okDays [<-|Hin]; [exact Hf|]. apply includes_In. now apply Hr.
  - intros H. split; [apply H; now left|].
    intros okDays Hin. apply includes_In. apply H. now right.
Qed.

(** C3, amended. For the ok-day lists of one source or more, [goodDay] is
    the first list filtered by the others: a day is in it iff every source
    has it, and it is empty when a source's list is empty. *)
Theorem goodDay_intersection first rest :
  exists days,
    Application.goodDay (first :: rest) = inr days
    /\ (forall day, In day days <-> forall okDays, In okDays (first :: rest) -> In day okDays)
    /\ (In [] (first :: rest) -> days = []).
Proof.
  eexists. split; [reflexivity|]. split; [apply goodDay_In|].
  intros Hin.
  match goal with |- ?l = [] => destruct l as [|day l'] eqn:E; [reflexivity|] end.
  assert (Hd : In day (day :: l')) by now left.
  rewrite <- E in Hd. destruct (proj1 (goodDay_In _ _ _) Hd [] Hin).
Qed.

(** C3 as stated fails on the empty collection, which [extractDates] is
    left with when the calendar page has no links or cannot be read:
    [arrayDays.shift()] is [undefined] and nothing is returned. *)
Lemma goodDay_empty_throws :
  Application.goodDay []
  = inl (TypeError "Cannot read properties of undefined (reading 'filter')")
  /\ fst (Application.collectDays Fixture.noCalendar (Some "http://s/calendar/") []) = inr []
  /\ fst (Application.extractDates Fixture.noCalendar Fixture.start [])
     = inl (TypeError "Cannot read properties of undefined (reading 'filter')")
  /\ ~ (forall arrayDays, exists days,
           Application.goodDay arrayDays = inr days
           /\ forall day, In day days <-> forall okDays, In okDays arrayDays -> In day okDays).
Proof.
  split; [reflexivity|]. split; [reflexivity|]. split; [vm_compute; reflexivity|].
  intros H. destruct (H []) as (days & Hd & _). discriminate Hd.
Qed.

(** ** iterateMovieDates: the showings of one movie *)

Lemma removeZero_In content num :
  In num (LinkScraper.removeZero content)
  <-> In num content /\ status num <> JS.VNumber (JS.Num 0).
Proof.
  unfold LinkScraper.removeZero. rewrite filter_In.
  split; intros [Hin Hs]; split; try exact Hin.
  - intros E. rewrite E in Hs. discriminate.
  - destruct (status num) as [| |b|[|z]|s]; try reflexivity.
    simpl. destruct (Z.eqb_spec z 0) as [->|]; [congruence|reflexivity].
Qed.

Lemma removeZero_dropped content :
  exists dropped,
    Permutation content (LinkScraper.removeZero content ++ dropped)
    /\ Forall (fun num => status num = JS.VNumber (JS.Num 0)) dropped.
Proof.
  exists (filter (fun num => negb (JS.notZero (status num))) content). split.
  - unfold LinkScraper.removeZero. induction content as [|x r IH]; simpl; [constructor|].
    destruct (JS.notZero (status x)); simpl.
    + now constructor.
    + rewrite IH at 1. apply Permutation_middle.
  - apply Forall_forall. intros num Hin. apply filter_In in Hin. destruct Hin as [_ H].
    destruct (status num) as [| |b|[|z]|s]; try discriminate H.
    simpl in H. apply negb_true_iff, negb_false_iff in H. apply Z.eqb_eq in H. now subst.
Qed.

Lemma movieTimes_map options movieString content :
  LinkScraper.movieTimes options movieString content
  = map (fun num => {| LinkScraper.timeOp := time num;
                       LinkScraper.movie := LinkScraper.movieTitle options movieString |})
        (LinkScraper.removeZero content).
Proof. unfold LinkScraper.movieTimes. now rewrite map_map. Qed.

Lemma find_first {A} (f : A -> bool) pre x post :
  (forall y, In y pre -> f y = false) -> f x = true ->
  find f (pre ++ x :: post) = Some x.
Proof.
  intros Hpre Hx. induction pre as [|y r IH]; simpl.
  - now rewrite Hx.
  - rewrite (Hpre y (or_introl eq_refl)). apply IH. intros z Hz. apply Hpre. now right.
Qed.

Lemma find_none {A} (f : A -> bool) l :
  (forall y, In y l -> f y = false) -> find f l = None.
Proof.
  induction l as [|y r IH]; intros H; simpl; [reflexivity|].
  rewrite (H y (or_introl eq_refl)). apply IH. intros z Hz. apply H. now right.
Qed.

Lemma movieTitle_first options pre option post movieString :
  options = (pre ++ option :: post)%list ->
  (forall o, In o pre -> value o <> movieString) ->
  value option = movieString ->
  LinkScraper.movieTitle options movieString = Some (text option).
Proof.
  intros -> Hpre Hv. unfold LinkScraper.movieTitle.
  rewrite find_first with (x := option); [reflexivity| |now apply String.eqb_eq].
  intros y Hy. apply String.eqb_neq. now apply Hpre.
Qed.

Lemma movieTitle_none options movieString :
  (forall o, In o options -> value o <> movieString) ->
  LinkScraper.movieTitle options movieString = None.
Proof.
  intros Hnone. unfold LinkScraper.movieTitle. rewrite find_none; [reflexivity|].
  intros y Hy. apply String.eqb_neq. now apply Hnone.
Qed.

(** The second movie of a list whose options are not in the order of their
    values, and a movie that no option names. *)
Example movieTimes_out_of_order :
  LinkScraper.movieTimes
    [ {| value := ""; text := "--- Pick a Movie ---" |};
      {| value := "03"; text := "A Day at the Races" |};
      {| value := "01"; text := "The Flying Deuces" |} ]
    (LinkScraper.twoDigits (JS.Num 1)) Fixture.soldOutAtTen
  = [ {| LinkScraper.timeOp := JS.VString "16:00";
         LinkScraper.movie := Some "The Flying Deuces" |} ]
  /\ LinkScraper.movieTimes
       [ {| value := ""; text := "--- Pick a Movie ---" |};
         {| value := "03"; text := "A Day at the Races" |};
         {| value := "01"; text := "The Flying Deuces" |} ]
       (LinkScraper.twoDigits (JS.Num 2)) Fixture.soldOutAtTen
     = [ {| LinkScraper.timeOp := JS.VString "16:00"; LinkScraper.movie := None |} ].
Proof. split; reflexivity. Qed.

(** ** sortAvailability: the codes of the available days *)

(** C7, amended. A code is kept iff its first three characters, as they are
    written, start the lower-case name of an available day; for a code
    whose first three characters are in lower case this is the match
    whatever the case. *)
Theorem filterDays_prefix inputElements dateInfo input :
  (In input (LinkScraper.filterDays inputElements dateInfo)
   <-> In input inputElements
       /\ exists day, In day dateInfo
                      /\ JS.startsWith (JS.toLowerCase day) (JS.slice 0 3 input) = true)
  /\ (JS.toLowerCase (JS.slice 0 3 input) = JS.slice 0 3 input ->
      (In input (LinkScraper.filterDays inputElements dateInfo)
       <-> In input inputElements
           /\ exists day, In day dateInfo /\ Spec.matchesDay input day = true)).
Proof.
  assert (H : In input (LinkScraper.filterDays inputElements dateInfo)
              <-> In input inputElements
                  /\ exists day, In day dateInfo
                       /\ JS.startsWith (JS.toLowerCase day) (JS.slice 0 3 input) = true).
  { unfold LinkScraper.filterDays. rewrite filter_In, existsb_exists. split.
    - intros [Hin (d & Hd & Hs)]. split; [exact Hin|].
      apply in_map_iff in Hd. destruct Hd as (day & <- & Hday). now exists day.
    - intros [Hin (day & Hday & Hs)]. split; [exact Hin|].
      exists (JS.toLowerCase day). split; [now apply in_map|exact Hs]. }
  split; [exact H|].
  intros Hlow. unfold Spec.matchesDay. rewrite Hlow. exact H.
Qed.

(** C7 as stated fails on a code written with a capital: only the day names
    are put in lower case. *)
Lemma filterDays_case_sensitive :
  ~ (In "Fri1820" (LinkScraper.filterDays ["Fri1820"] ["Friday"])
     <-> In "Fri1820" ["Fri1820"]
         /\ exists day, In day ["Friday"] /\ Spec.matchesDay "Fri1820" day = true).
Proof.
  intros [_ H].
  assert (Hin : In "Fri1820" (LinkScraper.filterDays ["Fri1820"] ["Friday"])).
  { apply H. split; [now left|]. exists "Friday". split; [now left|reflexivity]. }
  exact Hin.
Qed.

(** ** Numbers and their text *)

Lemma isDecimal_cases c :
  Spec.isDecimal c = true ->
  (c = "0" \/ c = "1" \/ c = "2" \/ c = "3" \/ c = "4" \/
   c = "5" \/ c = "6" \/ c = "7" \/ c = "8" \/ c = "9")%char.
Proof.
  destruct c as [[|] [|] [|] [|] [|] [|] [|] [|]]; vm_compute; intros H;
    try discriminate H; tauto.
Qed.

Ltac digit_cases c H :=
  let E := fresh in
  pose proof (isDecimal_cases c H) as E;
  repeat (destruct E as [E|E]); subst c.

Lemma digitsOnly_uint d : Spec.digitsOnly (NilEmpty.string_of_uint d) = true.
Proof. induction d; simpl; auto. Qed.

Lemma readDigits_acc d : forall acc n,
  JS.readDigits 10 (NilEmpty.string_of_uint d) (Zpos acc) n
  = (Zpos (Pos.of_uint_acc d acc), (n + Decimal.nb_digits d)%nat, EmptyString).
Proof.
  induction d; intros acc n; cbn [NilEmpty.string_of_uint JS.readDigits Pos.of_uint_acc Decimal.nb_digits];
    [ now rewrite Nat.add_0_r | .. ];
    (change (JS.digitIn 10 _) with (Some 0%Z) ||
     change (JS.digitIn 10 _) with (Some 1%Z) ||
     change (JS.digitIn 10 _) with (Some 2%Z) ||
     change (JS.digitIn 10 _) with (Some 3%Z) ||
     change (JS.digitIn 10 _) with (Some 4%Z) ||
     change (JS.digitIn 10 _) with (Some 5%Z) ||
     change (JS.digitIn 10 _) with (Some 6%Z) ||
     change (JS.digitIn 10 _) with (Some 7%Z) ||
     change (JS.digitIn 10 _) with (Some 8%Z) ||
     change (JS.digitIn 10 _) with (Some 9%Z));
    cbv iota beta.
  all: match goal with
       | |- JS.readDigits _ _ ?a _ = (Zpos (Pos.of_uint_acc _ ?b), _, _) =>
           replace a with (Zpos b) by lia
       end.
  all: rewrite IHd; f_equal; f_equal; lia.
Qed.

(** The first digit that is not 0: the value read so far becomes positive. *)
Ltac read_first_digit k p :=
  change (JS.digitIn 10 _) with (Some k); cbv iota beta;
  change (0 * 10 + k)%Z with (Zpos p);
  rewrite readDigits_acc; simpl Z.of_N; f_equal; f_equal; lia.

Lemma readDigits_uint d : forall n,
  JS.readDigits 10 (NilEmpty.string_of_uint d) 0 n
  = (Z.of_N (Pos.of_uint d), (n + Decimal.nb_digits d)%nat, EmptyString).
Proof.
  induction d; intros n;
    cbn [NilEmpty.string_of_uint JS.readDigits Pos.of_uint Decimal.nb_digits].
  - now rewrite Nat.add_0_r.
  - change (JS.digitIn 10 "0") with (Some 0%Z). cbv iota beta.
    change (0 * 10 + 0)%Z with 0%Z. rewrite IHd. f_equal. f_equal. lia.
  - read_first_digit 1%Z 1%positive.
  - read_first_digit 2%Z 2%positive.
  - read_first_digit 3%Z 3%positive.
  - read_first_digit 4%Z 4%positive.
  - read_first_digit 5%Z 5%positive.
  - read_first_digit 6%Z 6%positive.
  - read_first_digit 7%Z 7%positive.
  - read_first_digit 8%Z 8%positive.
  - read_first_digit 9%Z 9%positive.
Qed.

Lemma number_toString_decimal z : (0 <= z)%Z -> JS.number_toString (JS.Num z) = Spec.decimalText z.
Proof.
  destruct z as [|p|p]; intros H; [reflexivity| |lia].
  unfold JS.number_toString, Z.to_int, NilZero.string_of_int, NilZero.string_of_uint, Spec.decimalText.
  pose proof (DecimalPos.Unsigned.to_uint_nonnil p) as Hn.
  destruct (Pos.to_uint p); [contradiction|reflexivity..].
Qed.

Lemma decimalText_digits z : Spec.digitsOnly (Spec.decimalText z) = true.
Proof. destruct z; simpl; try reflexivity. apply digitsOnly_uint. Qed.

Lemma nb_digits_0 d : Decimal.nb_digits d = 0%nat -> d = Decimal.Nil.
Proof. destruct d; simpl; congruence. Qed.

Lemma readDigits_decimal z : (0 <= z)%Z ->
  exists k, JS.readDigits 10 (Spec.decimalText z) 0 0 = (z, S k, EmptyString).
Proof.
  destruct z as [|p|p]; intros H; [now exists 0%nat| |lia].
  simpl Spec.decimalText. rewrite readDigits_uint, DecimalPos.Unsigned.of_to. simpl Z.of_N.
  destruct (Decimal.nb_digits (Pos.to_uint p)) as [|k] eqn:Hk.
  - apply nb_digits_0 in Hk. now apply DecimalPos.Unsigned.to_uint_nonnil in Hk.
  - now exists k.
Qed.

Lemma trimEnd_digits s : Spec.digitsOnly s = true -> JS.trimEnd s = s.
Proof.
  induction s as [|c r IH]; [reflexivity|]. cbn [Spec.digitsOnly JS.trimEnd].
  intros H. apply andb_prop in H. destruct H as [Hc Hr].
  rewrite (IH Hr). destruct r; [|reflexivity].
  digit_cases c Hc; reflexivity.
Qed.

Lemma isDecimal_not_space c : Spec.isDecimal c = true -> JS.isWhiteSpace c = false.
Proof. intros H. digit_cases c H; reflexivity. Qed.

Lemma readSign_digit c r : Spec.isDecimal c = true -> JS.readSign (String c r) = (1%Z, String c r).
Proof. intros H. digit_cases c H; reflexivity. Qed.

Lemma radixPrefix_digits l u s :
  Spec.isDecimal l = false -> Spec.isDecimal u = false ->
  Spec.digitsOnly s = true -> JS.radixPrefix l u s = None.
Proof.
  intros Hl Hu. destruct s as [|c [|c2 r]]; [reflexivity..|]; cbn [Spec.digitsOnly JS.radixPrefix]; intros H.
  apply andb_prop in H. destruct H as [_ H]. apply andb_prop in H. destruct H as [Hc2 _].
  destruct (Ascii.eqb_spec c2 l) as [->|_]; [congruence|].
  destruct (Ascii.eqb_spec c2 u) as [->|_]; [congruence|].
  now rewrite andb_false_r.
Qed.

Lemma trimStart_digits s : Spec.digitsOnly s = true -> JS.trimStart s = s.
Proof.
  destruct s as [|c r]; [reflexivity|]. cbn [Spec.digitsOnly JS.trimStart]. intros H.
  apply andb_prop in H. destruct H as [Hc _]. now rewrite isDecimal_not_space.
Qed.

(** A text of decimal digits reads as its digits, in [parseInt] and in
    [Number]. *)
Lemma parseInt_digits s :
  Spec.digitsOnly s = true ->
  JS.parseInt s = match JS.readDigits 10 s 0 0 with
                  | (v, S _, _) => JS.Num v
                  | _ => JS.NaN
                  end.
Proof.
  intros H. unfold JS.parseInt. rewrite (trimStart_digits s H).
  destruct s as [|c r]; [reflexivity|].
  rewrite readSign_digit by (cbn [Spec.digitsOnly] in H; now apply andb_prop in H).
  rewrite (radixPrefix_digits "x" "X" _ eq_refl eq_refl H).
  destruct (JS.readDigits 10 (String c r) 0 0) as [[v [|k]] rest]; [reflexivity|].
  now rewrite Z.mul_1_l.
Qed.

Lemma Number_digits s :
  Spec.digitsOnly s = true -> s <> EmptyString ->
  JS.Number s = JS.allDigits 10 s.
Proof.
  intros H Hne. unfold JS.Number. rewrite (trimStart_digits s H), (trimEnd_digits s H).
  rewrite (radixPrefix_digits "x" "X" _ eq_refl eq_refl H),
    (radixPrefix_digits "o" "O" _ eq_refl eq_refl H),
    (radixPrefix_digits "b" "B" _ eq_refl eq_refl H).
  destruct s as [|c r]; [contradiction|]. unfold JS.signedDecimal.
  rewrite readSign_digit by (cbn [Spec.digitsOnly] in H; now apply andb_prop in H).
  destruct (JS.allDigits 10 (String c r)); [reflexivity|]. now rewrite Z.mul_1_l.
Qed.


Lemma digitsOnly_app a b : Spec.digitsOnly (a ++ b) = Spec.digitsOnly a && Spec.digitsOnly b.
Proof. induction a as [|c a IH]; simpl; [reflexivity|]. now rewrite IH, andb_assoc. Qed.

Lemma digitsOnly_zeros k : Spec.digitsOnly (JS.repeatChar "0" k) = true.
Proof. induction k; simpl; auto. Qed.

Lemma readDigits_zeros k s : forall n,
  JS.readDigits 10 (JS.repeatChar "0" k ++ s) 0 n = JS.readDigits 10 s 0 (n + k).
Proof.
  induction k as [|k IH]; intros n; simpl JS.repeatChar.
  - now rewrite Nat.add_0_r.
  - cbn [append JS.readDigits]. change (JS.digitIn 10 "0") with (Some 0%Z).
    cbv iota beta. change (0 * 10 + 0)%Z with 0%Z. rewrite IH. f_equal. lia.
Qed.

Lemma readDigits_count radix s : forall acc n,
  JS.readDigits radix s acc n
  = let '(v, k, rest) := JS.readDigits radix s acc 0 in (v, (n + k)%nat, rest).
Proof.
  induction s as [|c r IH]; intros acc n; cbn [JS.readDigits].
  - now rewrite Nat.add_0_r.
  - destruct (JS.digitIn radix c) as [d|].
    + rewrite (IH _ (S n)), (IH _ 1%nat).
      destruct (JS.readDigits radix r (acc * radix + d) 0) as [[v k] rest].
      f_equal. f_equal. lia.
    + now rewrite Nat.add_0_r.
Qed.

(** [twoDigits] of a number that is not negative: decimal digits that read
    back as the number. *)
Lemma twoDigits_decimal z : (0 <= z)%Z ->
  Spec.digitsOnly (LinkScraper.twoDigits (JS.Num z)) = true
  /\ exists k, JS.readDigits 10 (LinkScraper.twoDigits (JS.Num z)) 0 0 = (z, S k, EmptyString).
Proof.
  intros H. unfold LinkScraper.twoDigits, JS.padStart.
  rewrite number_toString_decimal by exact H. split.
  - now rewrite digitsOnly_app, digitsOnly_zeros, decimalText_digits.
  - rewrite readDigits_zeros, readDigits_count.
    destruct (readDigits_decimal z H) as (k & ->).
    exists (0 + (2 - String.length (Spec.decimalText z)) + k)%nat.
    f_equal. f_equal. lia.
Qed.

Lemma parseInt_twoDigits z : (0 <= z)%Z -> JS.parseInt (LinkScraper.twoDigits (JS.Num z)) = JS.Num z.
Proof.
  intros H. destruct (twoDigits_decimal z H) as (Hd & k & Hk).
  now rewrite parseInt_digits, Hk.
Qed.

Lemma Number_twoDigits z : (0 <= z)%Z -> JS.Number (LinkScraper.twoDigits (JS.Num z)) = JS.Num z.
Proof.
  intros H. destruct (twoDigits_decimal z H) as (Hd & k & Hk).
  rewrite Number_digits; [unfold JS.allDigits; now rewrite Hk|exact Hd|].
  intros E. rewrite E in Hk. discriminate.
Qed.

Lemma splitHead_digits c a b :
  Spec.isDecimal c = false -> Spec.digitsOnly a = true ->
  JS.splitHead c (a ++ String c b) = a.
Proof.
  intros Hc. induction a as [|x a IH]; cbn [Spec.digitsOnly append JS.splitHead]; intros H.
  - now rewrite Ascii.eqb_refl.
  - apply andb_prop in H. destruct H as [Hx Ha].
    destruct (Ascii.eqb_spec x c) as [->|_]; [congruence|]. now rewrite IH.
Qed.

Lemma twoDigits_length z : (0 <= z < 100)%Z -> String.length (LinkScraper.twoDigits (JS.Num z)) = 2%nat.
Proof.
  intros H.
  assert (Hall : forallb (fun n => Nat.eqb (String.length (LinkScraper.twoDigits (JS.Num (Z.of_nat n)))) 2)
                         (seq 0 100) = true) by (vm_compute; reflexivity).
  rewrite forallb_forall in Hall.
  specialize (Hall (Z.to_nat z)). rewrite Z2Nat.id in Hall by lia.
  apply Nat.eqb_eq, Hall, in_seq. lia.
Qed.

(** ** sortAvailability: the two-hour rule *)

Lemma hour_of_showing h mm : (0 <= h)%Z ->
  JS.splitHead ":" (LinkScraper.twoDigits (JS.Num h) ++ ":" ++ mm) = LinkScraper.twoDigits (JS.Num h).
Proof.
  intros H. apply splitHead_digits; [reflexivity|]. now apply twoDigits_decimal.
Qed.

Lemma slice_code p a r :
  String.length p = 3%nat -> String.length a = 2%nat ->
  JS.slice 3 5 (p ++ a ++ r) = a /\ JS.sliceFrom 5 (p ++ a ++ r) = r.
Proof.
  destruct p as [|p1 [|p2 [|p3 [|]]]]; try discriminate.
  destruct a as [|a1 [|a2 [|]]]; try discriminate.
  intros _ _. split; reflexivity.
Qed.

Lemma timeStart_slotCode day3 s rest :
  String.length day3 = 3%nat -> (0 <= s < 100)%Z ->
  LinkScraper.timeStart (Spec.slotCode day3 s rest) = JS.Num s
  /\ LinkScraper.timeEnd (Spec.slotCode day3 s rest) = JS.parseInt rest.
Proof.
  intros Hd Hs. unfold LinkScraper.timeStart, LinkScraper.timeEnd, Spec.slotCode.
  destruct (slice_code day3 (LinkScraper.twoDigits (JS.Num s)) rest Hd (twoDigits_length s Hs))
    as [-> ->].
  split; [apply parseInt_twoDigits; lia|reflexivity].
Qed.

Lemma filteredTimes_In filterDays_ h timeSlot :
  In timeSlot (LinkScraper.filteredTimes filterDays_ (JS.Num h))
  <-> In timeSlot filterDays_ /\ LinkScraper.timeStart timeSlot = JS.Num h.
Proof.
  unfold LinkScraper.filteredTimes. rewrite filter_In.
  split; intros [Hin Hs]; split; try exact Hin.
  - destruct (LinkScraper.timeStart timeSlot) as [|z]; [discriminate|].
    simpl in Hs. apply Z.eqb_eq in Hs. now subst.
  - rewrite Hs. simpl. apply Z.eqb_refl.
Qed.

Lemma resTime_showingAt filterDays_ h mm title :
  (0 <= h)%Z ->
  LinkScraper.resTime filterDays_ (Spec.showingAt h mm title)
  = inr (map LinkScraper.window (LinkScraper.filteredTimes filterDays_ (JS.Num (h + 2)))).
Proof.
  intros Hh. unfold LinkScraper.resTime, Spec.showingAt, LinkScraper.hourText, bindE.
  cbn [LinkScraper.timeOp].
  now rewrite hour_of_showing, parseInt_twoDigits by exact Hh.
Qed.

Lemma reservation_showings filterDays_ cinemaInfo :
  Forall (fun c => (0 <= Spec.hourOf c)%Z) cinemaInfo ->
  LinkScraper.reservation filterDays_ (map Spec.showingOf cinemaInfo)
  = inr (flat_map
           (fun c => map LinkScraper.window
                         (LinkScraper.filteredTimes filterDays_ (JS.Num (Spec.hourOf c + 2))))
           cinemaInfo).
Proof.
  induction 1 as [|[[h mm] title] r Hh _ IH]; cbn [map LinkScraper.reservation flat_map].
  - reflexivity.
  - cbn [Spec.showingOf]. rewrite (resTime_showingAt _ h mm title Hh). cbn [bindE].
    now rewrite IH.
Qed.

(** C2. For Showings at [h]:[mm], [sortAvailability] returns, Showing after
    Showing, the reservations of the slots that it selects among the
    day-matching codes, and it selects a slot for a Showing iff the slot's
    start hour, read from the code, is the Showing's hour plus two. For a
    code of the naming scheme (three characters, the start hour in two
    digits, the rest) that is: iff the start hour written in the code is
    [h + 2]; its reservation is the start hour, a dash and the number read
    from the rest. *)
Theorem sortAvailability_two_hour_rule w restFree dateInfo cinemaInfo :
  Forall (fun c => (0 <= Spec.hourOf c)%Z) cinemaInfo ->
  let codes := LinkScraper.filterDays (group1_values w restFree) dateInfo in
  let selected := fun h => LinkScraper.filteredTimes codes (JS.Num (h + 2)) in
  LinkScraper.sortAvailability w restFree (Some (map Spec.showingOf cinemaInfo)) dateInfo
  = inr (flat_map (fun c => map LinkScraper.window (selected (Spec.hourOf c))) cinemaInfo)
  /\ (forall h mm title, (0 <= h)%Z ->
        LinkScraper.sortAvailability w restFree (Some [Spec.showingAt h mm title]) dateInfo
        = inr (map LinkScraper.window (selected h)))
  /\ (forall h timeSlot,
        In timeSlot (selected h)
        <-> In timeSlot codes /\ LinkScraper.timeStart timeSlot = JS.Num (h + 2))
  /\ (forall h day3 s rest,
        String.length day3 = 3%nat -> (0 <= s < 100)%Z ->
        In (Spec.slotCode day3 s rest) codes ->
        (In (Spec.slotCode day3 s rest) (selected h) <-> s = (h + 2)%Z)
        /\ LinkScraper.window (Spec.slotCode day3 s rest)
           = JS.number_toString (JS.Num s) ++ "-" ++ JS.number_toString (JS.parseInt rest)).
Proof.
  intros Hh codes selected. split; [|split; [|split]].
  - unfold LinkScraper.sortAvailability. fold codes. now apply reservation_showings.
  - intros h mm title H0. unfold LinkScraper.sortAvailability. fold codes.
    cbn [LinkScraper.reservation]. rewrite (resTime_showingAt _ h mm title H0).
    cbn [bindE]. now rewrite List.app_nil_r.
  - intros h timeSlot. apply filteredTimes_In.
  - intros h day3 s rest Hd Hs Hin.
    destruct (timeStart_slotCode day3 s rest Hd Hs) as [Hts Hte]. split.
    + unfold selected. rewrite filteredTimes_In, Hts.
      split; [intros [_ [= ->]]; reflexivity|intros ->; now split].
    + unfold LinkScraper.window. now rewrite Hts, Hte.
Qed.

(** A Showing at 16:00 on the site, Friday being the day: of the values
    fri1416, fri1618, fri1820, sat1820 and sun2022 the day-matching ones
    are the first three, only the code with start hour 18 is selected, and
    its digits 1820 give the reservation 18-20. *)
Lemma sortAvailability_two_hour_rule_16 :
  Forall (fun c => (0 <= Spec.hourOf c)%Z) [(16%Z, "00", @None string)]
  /\ group1_values Fixture.friday "booking"
     = ["fri1416"; "fri1618"; "fri1820"; "sat1820"; "sun2022"]
  /\ LinkScraper.filterDays (group1_values Fixture.friday "booking") ["Friday"]
     = ["fri1416"; "fri1618"; "fri1820"]
  /\ LinkScraper.sortAvailability Fixture.friday "booking"
       (Some [ {| LinkScraper.timeOp := JS.VString "16:00"; LinkScraper.movie := None |} ])
       ["Friday"]
     = inr ["18-20"]
  /\ LinkScraper.sortAvailability Fixture.friday "booking"
       (Some (map Spec.showingOf [(16%Z, "00", @None string)])) ["Friday"]
     = inr (flat_map
              (fun c => map LinkScraper.window
                            (LinkScraper.filteredTimes
                               (LinkScraper.filterDays (group1_values Fixture.friday "booking")
                                                       ["Friday"])
                               (JS.Num (Spec.hourOf c + 2))))
              [(16%Z, "00", @None string)])
  /\ (In "fri1820"
         (LinkScraper.filteredTimes
            (LinkScraper.filterDays (group1_values Fixture.friday "booking") ["Friday"])
            (JS.Num (16 + 2)))
      <-> In "fri1820"
             (LinkScraper.filterDays (group1_values Fixture.friday "booking") ["Friday"])
          /\ LinkScraper.timeStart "fri1820" = JS.Num (16 + 2)).
Proof.
  assert (H : Forall (fun c => (0 <= Spec.hourOf c)%Z) [(16%Z, "00", @None string)])
    by (repeat constructor; discriminate).
  split; [exact H|]. split; [reflexivity|]. split; [reflexivity|]. split; [reflexivity|].
  split.
  - exact (proj1 (sortAvailability_two_hour_rule Fixture.friday "booking" ["Friday"]
                    [(16%Z, "00", @None string)] H)).
  - exact (proj1 (proj2 (proj2 (sortAvailability_two_hour_rule
                                  Fixture.friday "booking" ["Friday"]
                                  [(16%Z, "00", @None string)] H))) 16%Z "fri1820").
Defined.

(** ** run: the final assembly *)

Lemma concatE_flat_map {A} (f : A -> error + list string) (g : A -> list string) l :
  (forall x, In x l -> f x = inr (g x)) ->
  Application.concatE f l = inr (flat_map g l).
Proof.
  induction l as [|x r IH]; intros H; simpl; [reflexivity|].
  rewrite (H x (or_introl eq_refl)). simpl.
  rewrite IH by (intros y Hy; apply H; now right). reflexivity.
Qed.









(** ** Computations and their events *)

Section Emits.
Variable P : event -> Prop.

Lemma emits_ret {A} (a : A) : Spec.emits P (ret a).
Proof. intros t r t' [= <- <-]. exists []. now rewrite List.app_nil_r. Qed.

Lemma emits_throw {A} e : Spec.emits P (@throw A e).
Proof. intros t r t' [= <- <-]. exists []. now rewrite List.app_nil_r. Qed.

Lemma emits_lift {A} (x : error + A) : Spec.emits P (lift x).
Proof. intros t r t' [= <- <-]. exists []. now rewrite List.app_nil_r. Qed.

Lemma emits_emit e : P e -> Spec.emits P (emit e).
Proof. intros He t r t' [= <- <-]. exists [e]. split; [reflexivity|now constructor]. Qed.

Lemma emits_bind {A B} (m : M A) (k : A -> M B) :
  Spec.emits P m -> (forall a, Spec.emits P (k a)) -> Spec.emits P (bind m k).
Proof.
  intros Hm Hk t r t' H. unfold bind in H.
  destruct (m t) as [[e|a] t1] eqn:E.
  - injection H as <- <-. exact (Hm _ _ _ E).
  - destruct (Hm _ _ _ E) as (ev1 & -> & H1).
    destruct (Hk a _ _ _ H) as (ev2 & -> & H2).
    exists (ev1 ++ ev2)%list. split; [now rewrite List.app_assoc|now apply Forall_app].
Qed.

Lemma emits_try_catch {A} (m : M A) (h : error -> M A) :
  Spec.emits P m -> (forall e, Spec.emits P (h e)) -> Spec.emits P (try_catch m h).
Proof.
  intros Hm Hh t r t' H. unfold try_catch in H.
  destruct (m t) as [[e|a] t1] eqn:E.
  - destruct (Hm _ _ _ E) as (ev1 & -> & H1).
    destruct (Hh e _ _ _ H) as (ev2 & -> & H2).
    exists (ev1 ++ ev2)%list. split; [now rewrite List.app_assoc|now apply Forall_app].
  - injection H as <- <-. exact (Hm _ _ _ E).
Qed.

Lemma emits_fetch w rq : P (Fetch rq) -> Spec.emits P (LinkScraper.fetch_ w rq).
Proof. intros He t r t' [= <- <-]. exists [Fetch rq]. split; [reflexivity|now constructor]. Qed.
End Emits.

Create HintDb emits.

#[local] Hint Resolve emits_ret emits_throw emits_lift emits_emit emits_bind
emits_try_catch emits_fetch : emits.

Lemma emits_forPush P {A B} (f : A -> M (list B)) l :
  (forall x, Spec.emits P (f x)) -> Spec.emits P (forPush f l).
Proof.
  intros Hf. induction l as [|x r IH]; simpl; auto with emits.
Qed.

Lemma extend_after {A} (m : M A) t evs0 r t' :
  Spec.emits Spec.anyEvent m -> m (t ++ evs0)%list = (r, t') ->
  exists evs, t' = (t ++ evs0 ++ evs)%list.
Proof.
  intros Hm H. destruct (Hm _ _ _ H) as (evs & -> & _).
  exists evs. now rewrite List.app_assoc.
Qed.

Lemma longer_trace (t : list event) e evs : (t ++ e :: evs)%list <> t.
Proof.
  intros H. apply (f_equal (@List.length event)) in H.
  rewrite List.length_app in H. simpl in H. lia.
Qed.

Section Run.
Variable w : World.
Variable argv2 : option string.

Lemma GET_dateStage u : Spec.dateStageEvent (Fetch (GET u)).
Proof. now repeat split. Qed.

Lemma emits_extractLinks url : Spec.emits Spec.dateStageEvent (LinkScraper.extractLinks w url).
Proof.
  unfold LinkScraper.extractLinks. auto using GET_dateStage with emits.
Qed.

Lemma emits_parseHtmlDates url : Spec.emits Spec.dateStageEvent (LinkScraper.parseHtmlDates w url).
Proof.
  unfold LinkScraper.parseHtmlDates, LinkScraper.fetchText.
  auto 7 using GET_dateStage with emits.
Qed.

Lemma emits_initial : Spec.emits Spec.dateStageEvent (Application.initial w argv2).
Proof.
  unfold Application.initial.
  apply emits_try_catch; intros; auto 6 using emits_extractLinks with emits.
  apply emits_bind; intros; [apply emits_emit; exact I|apply emits_ret].
Qed.

Lemma pushOkDays_events linksOnPage : forall arrayDays t r t',
  Application.pushOkDays w linksOnPage arrayDays t = (r, t') ->
  exists evs, t' = (t ++ evs)%list /\ Forall Spec.dateStageEvent evs.
Proof.
  induction linksOnPage as [|nestedLink rest IH]; intros arrayDays t r t' H; simpl in H.
  - injection H as <- <-. exists []. now rewrite List.app_nil_r.
  - destruct (LinkScraper.parseHtmlDates w (Some nestedLink) t) as [[e|okDays] t1] eqn:E;
      destruct (emits_parseHtmlDates _ _ _ _ E) as (ev1 & -> & H1).
    + injection H as <- <-. now exists ev1.
    + destruct (IH _ _ _ _ H) as (ev2 & -> & H2).
      exists (ev1 ++ ev2)%list. split; [now rewrite List.app_assoc|now apply Forall_app].
Qed.

Lemma emits_collectDays firstLink : Spec.emits Spec.dateStageEvent (Application.collectDays w firstLink).
Proof.
  intros t r t' H. unfold Application.collectDays in H.
  destruct (LinkScraper.extractLinks w firstLink t) as [[e|linksOnPage] t1] eqn:E;
    destruct (emits_extractLinks _ _ _ _ E) as (ev1 & -> & H1).
  - injection H as <- <-. eexists. rewrite <- List.app_assoc. split; [reflexivity|].
    apply Forall_app. split; [exact H1|]. now repeat constructor.
  - destruct (Application.pushOkDays w linksOnPage [] (t ++ ev1)) as [[arrayDays [e|]] t2] eqn:E2;
      destruct (pushOkDays_events _ _ _ _ _ E2) as (ev2 & -> & H2); injection H as <- <-.
    + eexists. rewrite <- !List.app_assoc. split; [reflexivity|].
      repeat (apply Forall_app; split); try assumption. now repeat constructor.
    + eexists. rewrite <- !List.app_assoc. split; [reflexivity|].
      now apply Forall_app.
Qed.

Lemma any_event e : Spec.anyEvent e.
Proof. exact I. Qed.

Lemma emits_iterateMovieDates secondLink goodDay :
  Spec.emits Spec.anyEvent (LinkScraper.iterateMovieDates w secondLink goodDay).
Proof.
  unfold LinkScraper.iterateMovieDates, LinkScraper.fetchText.
  apply emits_bind; [auto using any_event with emits|]. intros htmlMovie.
  destruct (select_options w htmlMovie "movie"); [|apply emits_throw].
  destruct (select_options w htmlMovie "day"); [|apply emits_throw].
  destruct (find _ _); [|auto using any_event with emits].
  apply emits_forPush. intros movie. unfold LinkScraper.getCheckUrl.
  auto 7 using any_event with emits.
Qed.

Lemma emits_restaurantAuthentication thirdLink :
  Spec.emits Spec.anyEvent (LinkScraper.restaurantAuthentication w thirdLink).
Proof.
  unfold LinkScraper.restaurantAuthentication. auto 7 using any_event with emits.
Qed.

(** [initial] starts with the request for the start page. *)
Lemma initial_fetches_first t r t' :
  Application.initial w argv2 t = (r, t') ->
  exists evs, t' = (t ++ Fetch (GET (JS.show argv2)) :: evs)%list.
Proof.
  unfold Application.initial, try_catch, bind, emit, ret.
  rewrite extractLinks_unfold.
  destruct (fetch w t (GET (JS.show argv2))) as [e|response].
  - intros [= <- <-]. eexists. rewrite <- List.app_assoc. reflexivity.
  - destruct (LinkScraper.uniqueLinks _ _ _) as [e|l]; intros [= <- <-].
    + eexists. rewrite <- List.app_assoc. reflexivity.
    + now exists [].
Qed.

(** So do the cinema stage and the restaurant stage: each one that runs
    leaves events. *)
Lemma extractCinema_fetches_first goodDays t r t' :
  Application.extractCinema w argv2 goodDays t = (r, t') ->
  exists evs, t' = (t ++ Fetch (GET (JS.show argv2)) :: evs)%list.
Proof.
  unfold Application.extractCinema. unfold bind at 1.
  destruct (Application.initial w argv2 t) as [[e|links] t1] eqn:Hi;
    destruct (initial_fetches_first _ _ _ Hi) as (evs0 & ->).
  - intros [= <- <-]. now exists evs0.
  - intros H.
    change (t ++ Fetch (GET (JS.show argv2)) :: evs0)%list
      with (t ++ (Fetch (GET (JS.show argv2)) :: evs0))%list in H.
    eapply extend_after in H.
    + destruct H as (evs & ->). now exists (evs0 ++ evs)%list.
    + destruct links; auto 7 using any_event, emits_forPush, emits_iterateMovieDates with emits.
Qed.

Lemma extractRestaurant_fetches_first cinemaInfo dateInfo t r t' :
  Application.extractRestaurant w argv2 cinemaInfo dateInfo t = (r, t') ->
  exists evs, t' = (t ++ Fetch (GET (JS.show argv2)) :: evs)%list.
Proof.
  unfold Application.extractRestaurant. unfold bind at 1.
  destruct (Application.initial w argv2 t) as [[e|links] t1] eqn:Hi;
    destruct (initial_fetches_first _ _ _ Hi) as (evs0 & ->).
  - intros [= <- <-]. now exists evs0.
  - intros H.
    change (t ++ Fetch (GET (JS.show argv2)) :: evs0)%list
      with (t ++ (Fetch (GET (JS.show argv2)) :: evs0))%list in H.
    eapply extend_after in H.
    + destruct H as (evs & ->). now exists (evs0 ++ evs)%list.
    + destruct links; auto 8 using any_event, emits_restaurantAuthentication with emits.
Qed.

Lemma goodDay_empty arrayDays :
  (forall day, ~ (forall okDays, In okDays arrayDays -> In day okDays)) ->
  Application.goodDay arrayDays = inr [].
Proof.
  intros H. destruct arrayDays as [|first rest].
  - exfalso. apply (H ""). intros okDays [].
  - unfold Application.goodDay. f_equal.
    match goal with |- ?l = [] => destruct l as [|day days] eqn:E; [reflexivity|] end.
    exfalso. apply (H day). apply goodDay_In. rewrite E. now left.
Qed.

(** C4. When the link stage has its links and no day is in all the ok-day
    lists that the date stage gathered, [run] returns the text
    [No Dates Available] and its events end with the line of the date stage:
    after the line of the link stage there are only plain GET requests, lines
    on the error console and that line, so no login is posted and neither
    the cinema nor the restaurant stage reports. The two stages do not run
    unseen: whenever one of them runs, it adds events. *)
Theorem no_common_day t links t1 arrayDays t2 :
  Application.initial w argv2 (t ++ [ConsoleLog "Scraping Links...OK"])%list
  = (inr (Some links), t1) ->
  Application.collectDays w (nth_error links 0) t1 = (inr arrayDays, t2) ->
  (forall day, ~ (forall okDays, In okDays arrayDays -> In day okDays)) ->
  Application.run w argv2 t
  = (inr "No Dates Available", (t2 ++ [ConsoleLog "Scraping Date...OK"])%list)
  /\ (exists evs,
         (t2 ++ [ConsoleLog "Scraping Date...OK"]
          = t ++ ConsoleLog "Scraping Links...OK" :: evs)%list
         /\ Forall Spec.dateStageEvent evs)
  /\ (forall goodDays cinemaInfo dateInfo t0,
         snd (Application.extractCinema w argv2 goodDays t0) <> t0
         /\ snd (Application.extractRestaurant w argv2 cinemaInfo dateInfo t0) <> t0).
Proof.
  intros Hi Hc He. split; [|split].
  - unfold Application.run, Application.extractDates, bind, emit.
    rewrite Hi, Hc. unfold lift. now rewrite (goodDay_empty _ He).
  - destruct (emits_initial _ _ _ Hi) as (ev1 & -> & H1).
    destruct (emits_collectDays _ _ _ _ Hc) as (ev2 & -> & H2).
    exists (ev1 ++ ev2 ++ [ConsoleLog "Scraping Date...OK"])%list. split.
    + rewrite <- !List.app_assoc. reflexivity.
    + repeat (apply Forall_app; split); try assumption. now repeat constructor.
  - intros goodDays cinemaInfo dateInfo t0. split.
    + destruct (Application.extractCinema w argv2 goodDays t0) as [r t'] eqn:E.
      destruct (extractCinema_fetches_first _ _ _ _ E) as (evs & ->).
      apply longer_trace.
    + destruct (Application.extractRestaurant w argv2 cinemaInfo dateInfo t0) as [r t'] eqn:E.
      destruct (extractRestaurant_fetches_first _ _ _ _ _ E) as (evs & ->).
      apply longer_trace.
Qed.
End Run.

(** ** extractRestaurant: the reservations and the login *)


Section Restaurant.
Variable w : World.
Variable argv2 : option string.


(** C9, amended. Whenever the login request is answered, the second request
    is made, to the base followed by the Location header and with the
    Set-Cookie header as cookie, a missing header printed as [null]; the step
    returns the text of its answer and throws only when that request
    fails. *)
Theorem restaurantAuthentication_unchecked thirdLink t response :
  fetch w t (LinkScraper.loginRequest thirdLink) = inr response ->
  let t1 := (t ++ [Fetch (LinkScraper.loginRequest thirdLink)])%list in
  let second := LinkScraper.redirectRequest thirdLink response in
  LinkScraper.restaurantAuthentication w thirdLink t
  = (match fetch w t1 second with
     | inr redirectResponse => inr (resp_text redirectResponse)
     | inl e => inl e
     end, (t1 ++ [Fetch second])%list)
  /\ url second
     = JS.show thirdLink ++ show_null (headers_get "location" (resp_headers response))
  /\ headers second
     = [("Cookie", show_null (headers_get "set-cookie" (resp_headers response)))]
  /\ (headers_get "location" (resp_headers response) = None ->
      url second = JS.show thirdLink ++ "null")
  /\ (headers_get "set-cookie" (resp_headers response) = None ->
      headers second = [("Cookie", "null")]).
Proof.
  intros Hf t1 second. split; [|split; [reflexivity|split; [reflexivity|split]]].
  - unfold LinkScraper.restaurantAuthentication, bind, LinkScraper.fetch_, ret.
    rewrite Hf. fold t1 second. now destruct (fetch w t1 second).
  - intros H. unfold second, LinkScraper.redirectRequest. cbn [url]. now rewrite H.
  - intros H. unfold second, LinkScraper.redirectRequest. cbn [headers]. now rewrite H.
Qed.
End Restaurant.

(** On the site where Mary has no free day, the lists are Mary's, Paul's and
    Peter's, in the order of the sorted links. *)
Lemma no_common_day_site :
  exists links t1 t2,
    Application.initial Fixture.noDay Fixture.start ([] ++ [ConsoleLog "Scraping Links...OK"])%list
    = (inr (Some links), t1)
    /\ Application.collectDays Fixture.noDay (nth_error links 0) t1
       = (inr [[]; ["Friday"; "Saturday"]; ["Friday"; "Sunday"]], t2)
    /\ (forall day,
           ~ (forall okDays,
                 In okDays [[]; ["Friday"; "Saturday"]; ["Friday"; "Sunday"]] -> In day okDays))
    /\ Application.run Fixture.noDay Fixture.start []
       = (inr "No Dates Available", (t2 ++ [ConsoleLog "Scraping Date...OK"])%list)
    /\ (exists evs,
           (t2 ++ [ConsoleLog "Scraping Date...OK"]
            = [] ++ ConsoleLog "Scraping Links...OK" :: evs)%list
           /\ Forall Spec.dateStageEvent evs)
    /\ (forall goodDays cinemaInfo dateInfo t0,
           snd (Application.extractCinema Fixture.noDay Fixture.start goodDays t0) <> t0
           /\ snd (Application.extractRestaurant Fixture.noDay Fixture.start
                     cinemaInfo dateInfo t0) <> t0).
Proof.
  assert (H3 : forall day : string,
             ~ (forall okDays,
                   In okDays [[]; ["Friday"; "Saturday"]; ["Friday"; "Sunday"]] -> In day okDays)).
  { intros day H. exact (H [] (or_introl eq_refl)). }
  do 3 eexists.
  split; [reflexivity|]. split; [reflexivity|]. split; [exact H3|].
  exact (no_common_day Fixture.noDay Fixture.start [] _ _ _ _ eq_refl eq_refl H3).
Defined.

(** The login on the site: the booking page is fetched at the Location
    header with the cookie of the Set-Cookie header. *)
Lemma restaurantAuthentication_site :
  fetch Fixture.friday [] (LinkScraper.loginRequest (Some "http://s/dinner"))
  = inr {| resp_headers := Fixture.loginHeaders; resp_text := "";
           resp_json := inl (SyntaxError "Unexpected end of JSON input") |}
  /\ LinkScraper.restaurantAuthentication Fixture.friday (Some "http://s/dinner") []
     = (inr "booking",
        [ Fetch (LinkScraper.loginRequest (Some "http://s/dinner"));
          Fetch {| url := "http://s/dinner/login/booking"; method := "GET";
                   headers := [("Cookie", "session=42")]; body := None;
                   redirect := "follow" |} ]).
Proof.
  split; [reflexivity|].
  destruct (restaurantAuthentication_unchecked Fixture.friday (Some "http://s/dinner") []
              {| resp_headers := Fixture.loginHeaders; resp_text := "";
                 resp_json := inl (SyntaxError "Unexpected end of JSON input") |} eq_refl)
    as (H & _).
  exact H.
Defined.

(** C9 as stated fails when the login answers without headers: the step goes
    on, asks for the base followed by [null] with the cookie [null], and
    returns what the site answers there. *)
Lemma login_without_headers_proceeds :
  fetch Fixture.noHeaders [] (LinkScraper.loginRequest (Some "http://s/dinner"))
  = inr {| resp_headers := []; resp_text := "";
           resp_json := inl (SyntaxError "Unexpected end of JSON input") |}
  /\ headers_get "set-cookie" [] = None
  /\ headers_get "location" [] = None
  /\ LinkScraper.restaurantAuthentication Fixture.noHeaders (Some "http://s/dinner") []
     = (inr "Not Found",
        [ Fetch (LinkScraper.loginRequest (Some "http://s/dinner"));
          Fetch {| url := "http://s/dinnernull"; method := "GET";
                   headers := [("Cookie", "null")]; body := None;
                   redirect := "follow" |} ]).
Proof. repeat split; reflexivity. Qed.

(** ** Further properties of the stages *)

(** X1. [parseHtmlDates] pairs the i-th header with the i-th data cell and
    keeps, in the order of the page, the headers whose cell reads [ok]
    whatever its case; with fewer data cells than headers it throws. *)
Theorem okDays_paired thElements : forall tdElements,
  LinkScraper.okDays thElements tdElements
  = if (List.length thElements <=? List.length tdElements)%nat
    then inr (map fst (filter (fun p => String.eqb (JS.toLowerCase (snd p)) "ok")
                              (combine thElements tdElements)))
    else inl (TypeError "Cannot read properties of undefined (reading 'toLowerCase')").
Proof.
  induction thElements as [|th ths IH]; intros [|td tds]; try reflexivity.
  cbn [LinkScraper.okDays List.length combine filter snd]. rewrite IH.
  change (S (List.length ths) <=? S (List.length tds))%nat
    with (List.length ths <=? List.length tds)%nat.
  destruct (List.length ths <=? List.length tds)%nat; [|reflexivity].
  unfold bindE. now destruct (String.eqb (JS.toLowerCase td) "ok").
Qed.

(** X2. When the cinema page has both lists and no day option carries the
    day's name, [iterateMovieDates] logs [No dates available] on the error
    console and returns the empty array, with no request to the check
    endpoint. *)
Theorem iterateMovieDates_no_day w secondLink goodDay t response options dayOp :
  fetch w t (GET (JS.show secondLink)) = inr response ->
  select_options w (resp_text response) "movie" = Some options ->
  select_options w (resp_text response) "day" = Some dayOp ->
  (forall o, In o dayOp -> text o <> goodDay) ->
  LinkScraper.iterateMovieDates w secondLink goodDay t
  = (inr [], (t ++ [Fetch (GET (JS.show secondLink)); ConsoleError "No dates available"])%list).
Proof.
  intros Hf Hm Hd Hnone.
  unfold LinkScraper.iterateMovieDates, LinkScraper.fetchText, bind, LinkScraper.fetch_, ret.
  rewrite Hf, Hm, Hd. rewrite find_none.
  - unfold emit. now rewrite <- List.app_assoc.
  - intros o Ho. apply String.eqb_neq. now apply Hnone.
Qed.

(** No option of the cinema page is named Monday. *)
Lemma iterateMovieDates_monday :
  fetch Fixture.friday [] (GET (JS.show (Some "http://s/cinema"))) = inr (Fixture.page "cinema")
  /\ LinkScraper.iterateMovieDates Fixture.friday (Some "http://s/cinema") "Monday" []
     = (inr [], [Fetch (GET "http://s/cinema"); ConsoleError "No dates available"]).
Proof.
  split; [reflexivity|].
  apply (iterateMovieDates_no_day Fixture.friday (Some "http://s/cinema") "Monday" []
           (Fixture.page "cinema") Fixture.movies Fixture.weekend eq_refl eq_refl eq_refl).
  intros o Ho. simpl in Ho.
  destruct Ho as [<-|[<-|[<-|[<-|[]]]]]; discriminate.
Defined.

(** X3. When the start page cannot be fetched, [run] logs the failure and
    [No links fetched], then throws: [extractDates] returned [undefined] and
    its [length] is read. No other request is made. *)
Theorem run_without_links w argv2 t e :
  fetch w (t ++ [ConsoleLog "Scraping Links...OK"])%list (GET (JS.show argv2)) = inl e ->
  Application.run w argv2 t
  = (inl (TypeError "Cannot read properties of undefined (reading 'length')"),
     (t ++ [ ConsoleLog "Scraping Links...OK";
             Fetch (GET (JS.show argv2));
             ConsoleError ("Failed to fetch links: " ++ message_of e);
             ConsoleError "No links fetched" ])%list).
Proof.
  intros Hf.
  unfold Application.run, Application.extractDates, Application.initial,
    try_catch, bind, emit, ret, throw.
  rewrite extractLinks_unfold, Hf. cbv beta iota.
  f_equal. rewrite <- !List.app_assoc. reflexivity.
Qed.

(** The run without a start URL: [fetch(undefined)] fails. *)
Lemma run_without_argument :
  fetch Fixture.friday ([] ++ [ConsoleLog "Scraping Links...OK"])%list (GET (JS.show None))
  = inl (TypeError "fetch failed")
  /\ Application.run Fixture.friday None []
     = (inl (TypeError "Cannot read properties of undefined (reading 'length')"),
        [ ConsoleLog "Scraping Links...OK";
          Fetch (GET "undefined");
          ConsoleError "Failed to fetch links: fetch failed";
          ConsoleError "No links fetched" ]).
Proof.
  split; [reflexivity|].
  exact (run_without_links Fixture.friday None [] (TypeError "fetch failed") eq_refl).
Defined.

(** ** extractDates: a calendar that cannot be read *)

Section Calendars.

Variable w : World.
Hypothesis Hstatic : Cases.static w.

Lemma parseHtmlDates_static u t :
  LinkScraper.parseHtmlDates w (Some u) t
  = (Cases.okDaysAt w u, (t ++ [Cases.calendarRequest u])%list).
Proof.
  unfold LinkScraper.parseHtmlDates, LinkScraper.fetchText, bind, LinkScraper.fetch_,
    ret, lift, Cases.okDaysAt, Cases.calendarRequest.
  cbn [JS.show]. rewrite (Hstatic t [] (GET u)).
  destruct (fetch w [] (GET u)); reflexivity.
Qed.

Lemma pushOkDays_read pre : forall ds arrayDays t,
  mapE (Cases.okDaysAt w) pre = inr ds ->
  forall rest,
    Application.pushOkDays w (pre ++ rest) arrayDays t
    = Application.pushOkDays w rest (arrayDays ++ ds)
        (t ++ map Cases.calendarRequest pre).
Proof.
  induction pre as [|u pre IH]; intros ds arrayDays t Hm rest.
  - injection Hm as <-. now rewrite !List.app_nil_r.
  - cbn [mapE] in Hm. destruct (Cases.okDaysAt w u) as [e|d] eqn:Hu; [discriminate|].
    cbn [bindE] in Hm. destruct (mapE (Cases.okDaysAt w) pre) as [e|ds'] eqn:Hp; [discriminate|].
    injection Hm as <-.
    cbn [app Application.pushOkDays map]. rewrite parseHtmlDates_static, Hu.
    rewrite (IH ds' _ _ eq_refl). now rewrite <- !List.app_assoc.
Qed.

(** X4. On a site whose answers do not change, when the calendar [bad]
    cannot be read after the calendars [pre], [collectDays] requests the
    calendars up to [bad] and none of those behind it, logs one line, and
    does not throw: its array holds the ok days of [pre] only, so the
    common days are computed without the unread calendars. *)
Theorem collectDays_stops_at_failure firstLink t pre bad post t1 ds e :
  LinkScraper.extractLinks w firstLink t = (inr (pre ++ bad :: post)%list, t1) ->
  mapE (Cases.okDaysAt w) pre = inr ds ->
  Cases.okDaysAt w bad = inl e ->
  Application.collectDays w firstLink t
  = (inr ds,
     (t1 ++ map Cases.calendarRequest (pre ++ [bad])
         ++ [ConsoleError ("Failed to fetch links from: " ++ JS.show firstLink)])%list)
  /\ List.length ds = List.length pre
  /\ (pre = [] ->
      Application.goodDay ds
      = inl (TypeError "Cannot read properties of undefined (reading 'filter')")).
Proof.
  intros Hl Hm He. split; [|split].
  - unfold Application.collectDays. rewrite Hl.
    rewrite (pushOkDays_read pre ds [] t1 Hm).
    cbn [Application.pushOkDays app]. rewrite parseHtmlDates_static, He.
    rewrite map_app. cbn [map]. now rewrite <- !List.app_assoc.
  - clear Hl. revert ds Hm. induction pre as [|u pre IH]; intros ds Hm.
    + now injection Hm as <-.
    + cbn [mapE] in Hm. destruct (Cases.okDaysAt w u); [discriminate|].
      cbn [bindE] in Hm. destruct (mapE (Cases.okDaysAt w) pre) as [|ds']; [discriminate|].
      injection Hm as <-. simpl. f_equal. now apply IH.
  - intros ->. now injection Hm as <-.
Qed.

End Calendars.

Lemma fixture_static friends mary loginHeaders :
  Cases.static (Fixture.site friends mary loginHeaders).
Proof. intros t t' rq. reflexivity. Qed.

(** The calendar of nobody stands between Mary's and Peter's: Peter's is
    not asked for, and the common days are Mary's. *)
Lemma collectDays_lostCalendar :
  Cases.static Cases.lostCalendar
  /\ LinkScraper.extractLinks Cases.lostCalendar (Some "http://s/calendar/") []
     = (inr (["http://s/calendar/mary.html"]
               ++ "http://s/calendar/nobody.html" :: ["http://s/calendar/peter.html"])%list,
        [Fetch (GET "http://s/calendar/")])
  /\ mapE (Cases.okDaysAt Cases.lostCalendar) ["http://s/calendar/mary.html"]
     = inr [["Friday"; "Sunday"]]
  /\ Cases.okDaysAt Cases.lostCalendar "http://s/calendar/nobody.html"
     = inl (TypeError "fetch failed")
  /\ Application.collectDays Cases.lostCalendar (Some "http://s/calendar/") []
     = (inr [["Friday"; "Sunday"]],
        [ Fetch (GET "http://s/calendar/");
          Fetch (GET "http://s/calendar/mary.html");
          Fetch (GET "http://s/calendar/nobody.html");
          ConsoleError "Failed to fetch links from: http://s/calendar/" ]).
Proof.
  split; [apply fixture_static|].
  split; [reflexivity|]. split; [reflexivity|]. split; [reflexivity|].
  exact (proj1 (collectDays_stops_at_failure Cases.lostCalendar
                  (fixture_static _ _ _) (Some "http://s/calendar/") []
                  ["http://s/calendar/mary.html"] "http://s/calendar/nobody.html"
                  ["http://s/calendar/peter.html"] _ _ _ eq_refl eq_refl eq_refl)).
Defined.

(** ** iterateMovieDates: the loop over the movies *)

Lemma forPush_all {A B} (f : A -> M (list B)) (g : A -> list B) (ev : A -> event) l :
  (forall x t, In x l -> f x t = (inr (g x), (t ++ [ev x])%list)) ->
  forall t, forPush f l t = (inr (flat_map g l), (t ++ map ev l)%list).
Proof.
  induction l as [|x r IH]; intros H t.
  - cbn. now rewrite List.app_nil_r.
  - cbn [forPush flat_map map]. unfold bind at 1. rewrite (H x t (or_introl eq_refl)).
    unfold bind at 1. rewrite IH by (intros y t' Hy; apply H; now right).
    unfold ret. now rewrite <- List.app_assoc.
Qed.

Lemma forPush_throws {A B} (f : A -> M (list B)) (g : A -> list B) (ev : A -> event)
      pre bad post e :
  (forall x t, In x pre -> f x t = (inr (g x), (t ++ [ev x])%list)) ->
  (forall t, f bad t = (inl e, (t ++ [ev bad])%list)) ->
  forall t, forPush f (pre ++ bad :: post) t = (inl e, (t ++ map ev (pre ++ [bad]))%list).
Proof.
  intros Hpre Hbad. induction pre as [|x r IH]; intros t.
  - cbn [app forPush map]. unfold bind at 1. now rewrite Hbad.
  - cbn [app forPush map]. unfold bind at 1. rewrite (Hpre x t (or_introl eq_refl)).
    unfold bind at 1. rewrite IH by (intros y t' Hy; apply Hpre; now right).
    now rewrite <- List.app_assoc.
Qed.

Section Movies.

Variable w : World.

Lemma getCheckUrl_answer secondLink day movie t :
  LinkScraper.getCheckUrl w secondLink day (LinkScraper.twoDigits (JS.Num (Z.of_nat movie))) t
  = (Cases.checkAnswer w t (Cases.checkUrl secondLink day movie),
     (t ++ [Fetch (GET (Cases.checkUrl secondLink day movie))])%list).
Proof.
  unfold LinkScraper.getCheckUrl, bind, LinkScraper.fetch_, lift, Cases.checkAnswer.
  fold (Cases.checkUrl secondLink day movie).
  destruct (fetch w t (GET (Cases.checkUrl secondLink day movie))); reflexivity.
Qed.

Lemma iterateMovieDates_loop secondLink goodDay t response options dayOp goodDayOption :
  fetch w t (GET (JS.show secondLink)) = inr response ->
  select_options w (resp_text response) "movie" = Some options ->
  select_options w (resp_text response) "day" = Some dayOp ->
  find (fun option => String.eqb (text option) goodDay) dayOp = Some goodDayOption ->
  LinkScraper.iterateMovieDates w secondLink goodDay t
  = forPush
      (fun movie =>
         bind (LinkScraper.getCheckUrl w secondLink
                 (LinkScraper.twoDigits (JS.Number (value goodDayOption)))
                 (LinkScraper.twoDigits (JS.Num (Z.of_nat movie))))
              (fun content =>
                 ret (LinkScraper.movieTimes options
                        (LinkScraper.twoDigits (JS.Num (Z.of_nat movie))) content)))
      (seq 1 (List.length options - 1))
      (t ++ [Fetch (GET (JS.show secondLink))])%list.
Proof.
  intros Hf Hm Hd Hg.
  unfold LinkScraper.iterateMovieDates, LinkScraper.fetchText.
  unfold bind at 1. unfold bind at 1. unfold LinkScraper.fetch_ at 1. rewrite Hf.
  unfold ret at 1. cbv beta iota. now rewrite Hm, Hd, Hg.
Qed.

Lemma iterateMovieDates_showings secondLink goodDay t response options dayOp goodDayOption
      (content : nat -> list entry) :
  fetch w t (GET (JS.show secondLink)) = inr response ->
  select_options w (resp_text response) "movie" = Some options ->
  select_options w (resp_text response) "day" = Some dayOp ->
  find (fun option => String.eqb (text option) goodDay) dayOp = Some goodDayOption ->
  (forall movie t', 1 <= movie < List.length options ->
     Cases.checkAnswer w t'
       (Cases.checkUrl secondLink
          (LinkScraper.twoDigits (JS.Number (value goodDayOption))) movie)
     = inr (content movie)) ->
  fst (LinkScraper.iterateMovieDates w secondLink goodDay t)
  = inr (Cases.showingsOf options content).
Proof.
  intros Hf Hm Hd Hg Hc.
  rewrite (iterateMovieDates_loop _ _ _ _ _ _ _ Hf Hm Hd Hg).
  rewrite forPush_all
    with (g := fun movie => LinkScraper.movieTimes options
                              (LinkScraper.twoDigits (JS.Num (Z.of_nat movie))) (content movie))
         (ev := fun movie =>
                  Fetch (GET (Cases.checkUrl secondLink
                                (LinkScraper.twoDigits (JS.Number (value goodDayOption)))
                                movie))).
  - cbn [fst]. unfold Cases.showingsOf. f_equal. apply flat_map_ext. intros movie.
    apply movieTimes_map.
  - intros movie t' Hin. apply in_seq in Hin.
    unfold bind. rewrite getCheckUrl_answer, Hc by lia. reflexivity.
Qed.

Lemma showingsOf_In options content film :
  In film (Cases.showingsOf options content)
  <-> exists movie num,
        1 <= movie < List.length options
        /\ In num (content movie)
        /\ status num <> JS.VNumber (JS.Num 0)
        /\ film = Cases.showing options movie num.
Proof.
  unfold Cases.showingsOf. rewrite in_flat_map. split.
  - intros (movie & Hm & Hin). apply in_seq in Hm. apply in_map_iff in Hin.
    destruct Hin as (num & <- & Hn). apply removeZero_In in Hn. destruct Hn as [Hn Hs].
    exists movie, num. repeat split; try assumption; lia.
  - intros (movie & num & Hm & Hn & Hs & ->). exists movie. split; [apply in_seq; lia|].
    apply in_map. apply removeZero_In. now split.
Qed.

(** C6. When the cinema page has both lists and an option for the day, and
    the check endpoint answers for every movie, [iterateMovieDates] returns
    one Showing per entry of the answers whose status is not 0, with the
    entry's time, and none for the entries of status 0, which are all that
    is left out. On a cinema with one movie whose answer is
    [{status:0,time:"10:00"},{status:1,time:"16:00"}] it returns one
    Showing, at 16:00. *)
Theorem iterateMovieDates_keeps_nonzero secondLink goodDay t response options dayOp goodDayOption
        (content : nat -> list entry) :
  fetch w t (GET (JS.show secondLink)) = inr response ->
  select_options w (resp_text response) "movie" = Some options ->
  select_options w (resp_text response) "day" = Some dayOp ->
  find (fun option => String.eqb (text option) goodDay) dayOp = Some goodDayOption ->
  (forall movie t', 1 <= movie < List.length options ->
     Cases.checkAnswer w t'
       (Cases.checkUrl secondLink
          (LinkScraper.twoDigits (JS.Number (value goodDayOption))) movie)
     = inr (content movie)) ->
  exists data,
    fst (LinkScraper.iterateMovieDates w secondLink goodDay t) = inr data
    /\ data
       = flat_map (fun movie =>
                     map (Cases.showing options movie)
                         (filter (fun num => JS.notZero (status num)) (content movie)))
                  (seq 1 (List.length options - 1))
    /\ (forall film,
           In film data
           <-> exists movie num,
                 1 <= movie < List.length options
                 /\ In num (content movie)
                 /\ status num <> JS.VNumber (JS.Num 0)
                 /\ film = Cases.showing options movie num)
    /\ (forall movie, exists dropped,
           Permutation (content movie)
                       (filter (fun num => JS.notZero (status num)) (content movie) ++ dropped)
           /\ Forall (fun num => status num = JS.VNumber (JS.Num 0)) dropped)
    /\ (List.length options = 2 -> content 1 = Fixture.soldOutAtTen ->
        data = [ {| LinkScraper.timeOp := JS.VString "16:00";
                    LinkScraper.movie := LinkScraper.movieTitle options "01" |} ]).
Proof.
  intros Hf Hm Hd Hg Hc. exists (Cases.showingsOf options content).
  split; [now apply (iterateMovieDates_showings _ _ _ response options dayOp goodDayOption)|].
  split; [reflexivity|]. split; [apply showingsOf_In|]. split.
  - intros movie. apply removeZero_dropped.
  - intros Hl H1. unfold Cases.showingsOf. rewrite Hl. cbn [Nat.sub seq flat_map].
    rewrite H1. reflexivity.
Qed.

(** C10. Under the same conditions, the Showings that [iterateMovieDates]
    returns for the movie number [movie] carry the text of the first option
    whose value is the number in two digits, wherever that option stands in
    the list; when no option has that value the Showings of that movie are
    returned all the same, with an undefined title. *)
Theorem iterateMovieDates_title_by_value secondLink goodDay t response options dayOp goodDayOption
        (content : nat -> list entry) :
  fetch w t (GET (JS.show secondLink)) = inr response ->
  select_options w (resp_text response) "movie" = Some options ->
  select_options w (resp_text response) "day" = Some dayOp ->
  find (fun option => String.eqb (text option) goodDay) dayOp = Some goodDayOption ->
  (forall movie t', 1 <= movie < List.length options ->
     Cases.checkAnswer w t'
       (Cases.checkUrl secondLink
          (LinkScraper.twoDigits (JS.Number (value goodDayOption))) movie)
     = inr (content movie)) ->
  exists data : list (list LinkScraper.Showing),
    fst (LinkScraper.iterateMovieDates w secondLink goodDay t) = inr (List.concat data)
    /\ List.length data = List.length options - 1
    /\ forall movie, 1 <= movie < List.length options ->
         let movieString := LinkScraper.twoDigits (JS.Num (Z.of_nat movie)) in
         let entries := filter (fun num => JS.notZero (status num)) (content movie) in
         (forall pre option post,
             options = (pre ++ option :: post)%list ->
             (forall o, In o pre -> value o <> movieString) ->
             value option = movieString ->
             nth_error data (movie - 1)
             = Some (map (fun num => {| LinkScraper.timeOp := time num;
                                        LinkScraper.movie := Some (text option) |})
                         entries))
         /\ ((forall o, In o options -> value o <> movieString) ->
             nth_error data (movie - 1)
             = Some (map (fun num => {| LinkScraper.timeOp := time num;
                                        LinkScraper.movie := None |})
                         entries)).
Proof.
  intros Hf Hm Hd Hg Hc.
  exists (map (fun movie => map (Cases.showing options movie)
                                (LinkScraper.removeZero (content movie)))
              (seq 1 (List.length options - 1))).
  split; [|split].
  - rewrite <- flat_map_concat_map.
    now apply (iterateMovieDates_showings _ _ _ response options dayOp goodDayOption).
  - now rewrite length_map, length_seq.
  - intros movie Hmv movieString entries.
    assert (Hn : nth_error
                   (map (fun movie => map (Cases.showing options movie)
                                          (LinkScraper.removeZero (content movie)))
                        (seq 1 (List.length options - 1))) (movie - 1)
                 = Some (map (Cases.showing options movie)
                             (LinkScraper.removeZero (content movie)))).
    { rewrite nth_error_map.
      replace (nth_error (seq 1 (List.length options - 1)) (movie - 1)) with (Some movie);
        [reflexivity|].
      symmetry. rewrite nth_error_nth' with (d := 0) by (rewrite length_seq; lia).
      rewrite seq_nth by lia. f_equal. lia. }
    split.
    + intros pre option post Ho Hpre Hv. rewrite Hn. f_equal. apply map_ext. intros num.
      unfold Cases.showing. fold movieString.
      now rewrite (movieTitle_first options pre option post movieString Ho Hpre Hv).
    + intros Hnone. rewrite Hn. f_equal. apply map_ext. intros num.
      unfold Cases.showing. fold movieString.
      now rewrite (movieTitle_none options movieString Hnone).
Qed.

(** X5. When the cinema page has both lists and an option for the day, and
    every check request is answered with an array, [iterateMovieDates] asks
    for the page, then for the movies 1 to n-1 of the n options, in that
    order and never for the option at index 0, each at
    [{base}/check?day=DD&movie=MM]; it returns the Showings of these
    answers, movie after movie. *)
Theorem iterateMovieDates_in_order secondLink goodDay t response options dayOp goodDayOption
        (content : nat -> list entry) :
  fetch w t (GET (JS.show secondLink)) = inr response ->
  select_options w (resp_text response) "movie" = Some options ->
  select_options w (resp_text response) "day" = Some dayOp ->
  find (fun option => String.eqb (text option) goodDay) dayOp = Some goodDayOption ->
  let day := LinkScraper.twoDigits (JS.Number (value goodDayOption)) in
  (forall movie t', 1 <= movie < List.length options ->
     Cases.checkAnswer w t' (Cases.checkUrl secondLink day movie) = inr (content movie)) ->
  LinkScraper.iterateMovieDates w secondLink goodDay t
  = (inr (flat_map
            (fun movie => LinkScraper.movieTimes options
                            (LinkScraper.twoDigits (JS.Num (Z.of_nat movie))) (content movie))
            (seq 1 (List.length options - 1))),
     (t ++ Fetch (GET (JS.show secondLink))
        :: map (fun movie => Fetch (GET (Cases.checkUrl secondLink day movie)))
               (seq 1 (List.length options - 1)))%list).
Proof.
  intros Hf Hm Hd Hg day Hc.
  rewrite (iterateMovieDates_loop _ _ _ _ _ _ _ Hf Hm Hd Hg). fold day.
  rewrite forPush_all
    with (g := fun movie => LinkScraper.movieTimes options
                              (LinkScraper.twoDigits (JS.Num (Z.of_nat movie))) (content movie))
         (ev := fun movie => Fetch (GET (Cases.checkUrl secondLink day movie))).
  - now rewrite <- List.app_assoc.
  - intros movie t' Hin. apply in_seq in Hin.
    unfold bind. rewrite getCheckUrl_answer, Hc by lia. reflexivity.
Qed.

(** X6. If the check request for movie [k] fails, or is answered with
    something else than an array, after the movies before [k] were answered,
    [iterateMovieDates] throws that error: the Showings gathered so far are
    not returned and the movies after [k] are not asked for. *)
Theorem iterateMovieDates_check_fails secondLink goodDay t response options dayOp goodDayOption
        (content : nat -> list entry) k e :
  fetch w t (GET (JS.show secondLink)) = inr response ->
  select_options w (resp_text response) "movie" = Some options ->
  select_options w (resp_text response) "day" = Some dayOp ->
  find (fun option => String.eqb (text option) goodDay) dayOp = Some goodDayOption ->
  let day := LinkScraper.twoDigits (JS.Number (value goodDayOption)) in
  1 <= k < List.length options ->
  (forall movie t', 1 <= movie < k ->
     Cases.checkAnswer w t' (Cases.checkUrl secondLink day movie) = inr (content movie)) ->
  (forall t', Cases.checkAnswer w t' (Cases.checkUrl secondLink day k) = inl e) ->
  LinkScraper.iterateMovieDates w secondLink goodDay t
  = (inl e,
     (t ++ Fetch (GET (JS.show secondLink))
        :: map (fun movie => Fetch (GET (Cases.checkUrl secondLink day movie)))
               (seq 1 k))%list).
Proof.
  intros Hf Hm Hd Hg day Hk Hc He.
  rewrite (iterateMovieDates_loop _ _ _ _ _ _ _ Hf Hm Hd Hg). fold day.
  replace (List.length options - 1) with ((k - 1) + S (List.length options - 1 - k)) by lia.
  rewrite seq_app. cbn [seq].
  rewrite forPush_throws
    with (g := fun movie => LinkScraper.movieTimes options
                              (LinkScraper.twoDigits (JS.Num (Z.of_nat movie))) (content movie))
         (ev := fun movie => Fetch (GET (Cases.checkUrl secondLink day movie)))
         (e := e).
  - rewrite <- List.app_assoc. cbn [app]. do 3 f_equal.
    replace k with ((k - 1) + 1) at 3 by lia. rewrite seq_app. reflexivity.
  - intros movie t' Hin. apply in_seq in Hin.
    unfold bind. rewrite getCheckUrl_answer, Hc by lia. reflexivity.
  - intros t'. unfold bind. replace (1 + (k - 1)) with k by lia.
    now rewrite getCheckUrl_answer, He.
Qed.

End Movies.

(** The cinema with one movie, sold out at ten: one Showing, at 16:00. *)
Lemma iterateMovieDates_sold_out_at_ten :
  fetch Cases.oneMovie [] (GET (JS.show (Some "http://s/cinema"))) = inr (Fixture.page "cinema")
  /\ select_options Cases.oneMovie "cinema" "movie"
     = Some [ {| value := ""; text := "--- Pick a Movie ---" |};
              {| value := "01"; text := "The Flying Deuces" |} ]
  /\ select_options Cases.oneMovie "cinema" "day" = Some Fixture.weekend
  /\ find (fun option => String.eqb (text option) "Friday") Fixture.weekend
     = Some {| value := "05"; text := "Friday" |}
  /\ (forall movie t', 1 <= movie < 2 ->
        Cases.checkAnswer Cases.oneMovie t' (Cases.checkUrl (Some "http://s/cinema") "05" movie)
        = inr Fixture.soldOutAtTen)
  /\ exists data,
      fst (LinkScraper.iterateMovieDates Cases.oneMovie (Some "http://s/cinema") "Friday" [])
      = inr data
      /\ data = [ {| LinkScraper.timeOp := JS.VString "16:00";
                     LinkScraper.movie := Some "The Flying Deuces" |} ].
Proof.
  assert (Hc : forall movie t', 1 <= movie < 2 ->
             Cases.checkAnswer Cases.oneMovie t'
               (Cases.checkUrl (Some "http://s/cinema") "05" movie)
             = inr Fixture.soldOutAtTen).
  { intros movie t' H. destruct movie as [|[|movie]]; try lia; reflexivity. }
  split; [reflexivity|]. split; [reflexivity|]. split; [reflexivity|].
  split; [reflexivity|]. split; [exact Hc|].
  destruct (iterateMovieDates_keeps_nonzero Cases.oneMovie (Some "http://s/cinema") "Friday" []
              (Fixture.page "cinema")
              [ {| value := ""; text := "--- Pick a Movie ---" |};
                {| value := "01"; text := "The Flying Deuces" |} ]
              Fixture.weekend {| value := "05"; text := "Friday" |}
              (fun _ => Fixture.soldOutAtTen) eq_refl eq_refl eq_refl eq_refl Hc)
    as (data & Hdata & _ & _ & _ & Hten).
  exists data. split; [exact Hdata|]. exact (Hten eq_refl eq_refl).
Defined.

(** The cinema whose options are out of order: the movie 1 has its title
    from the option of value 01, the third of the list; no option has the
    value 02, and the Showing of the movie 2 is returned without a title. *)
Lemma iterateMovieDates_shuffled :
  fetch Cases.shuffledCinema [] (GET (JS.show (Some "http://s/cinema")))
  = inr (Fixture.page "cinema")
  /\ select_options Cases.shuffledCinema "cinema" "movie" = Some Cases.shuffledMovies
  /\ select_options Cases.shuffledCinema "cinema" "day" = Some Fixture.weekend
  /\ find (fun option => String.eqb (text option) "Friday") Fixture.weekend
     = Some {| value := "05"; text := "Friday" |}
  /\ (forall movie t', 1 <= movie < 3 ->
        Cases.checkAnswer Cases.shuffledCinema t'
          (Cases.checkUrl (Some "http://s/cinema") "05" movie)
        = inr (match movie with
               | 1 => Fixture.soldOutAtTen
               | _ => [Fixture.seat 1 "18:00"]
               end))
  /\ fst (LinkScraper.iterateMovieDates Cases.shuffledCinema (Some "http://s/cinema") "Friday" [])
     = inr [ {| LinkScraper.timeOp := JS.VString "16:00";
                LinkScraper.movie := Some "The Flying Deuces" |};
             {| LinkScraper.timeOp := JS.VString "18:00"; LinkScraper.movie := None |} ]
  /\ exists data,
      fst (LinkScraper.iterateMovieDates Cases.shuffledCinema (Some "http://s/cinema")
             "Friday" [])
      = inr (List.concat data)
      /\ nth_error data 0
         = Some [ {| LinkScraper.timeOp := JS.VString "16:00";
                     LinkScraper.movie := Some "The Flying Deuces" |} ]
      /\ nth_error data 1
         = Some [ {| LinkScraper.timeOp := JS.VString "18:00"; LinkScraper.movie := None |} ].
Proof.
  assert (Hc : forall movie t', 1 <= movie < 3 ->
             Cases.checkAnswer Cases.shuffledCinema t'
               (Cases.checkUrl (Some "http://s/cinema") "05" movie)
             = inr (match movie with
                    | 1 => Fixture.soldOutAtTen
                    | _ => [Fixture.seat 1 "18:00"]
                    end)).
  { intros movie t' H. destruct movie as [|[|[|movie]]]; try lia; reflexivity. }
  split; [reflexivity|]. split; [reflexivity|]. split; [reflexivity|].
  split; [reflexivity|]. split; [exact Hc|]. split; [reflexivity|].
  destruct (iterateMovieDates_title_by_value Cases.shuffledCinema (Some "http://s/cinema") "Friday" []
              (Fixture.page "cinema") Cases.shuffledMovies
              Fixture.weekend {| value := "05"; text := "Friday" |}
              (fun movie => match movie with
                            | 1 => Fixture.soldOutAtTen
                            | _ => [Fixture.seat 1 "18:00"]
                            end)
              eq_refl eq_refl eq_refl eq_refl Hc)
    as (data & Hdata & _ & Htitle).
  exists data. split; [exact Hdata|]. split.
  - refine (proj1 (Htitle 1 _)
              [ {| value := ""; text := "--- Pick a Movie ---" |};
                {| value := "03"; text := "A Day at the Races" |} ]
              {| value := "01"; text := "The Flying Deuces" |} [] eq_refl _ eq_refl).
    + simpl. lia.
    + intros o [<-|[<-|[]]]; discriminate.
  - refine (proj2 (Htitle 2 _) _).
    + simpl. lia.
    + intros o [<-|[<-|[<-|[]]]]; discriminate.
Defined.

(** Friday on the site: three check requests, for the movies 01, 02, 03. *)
Lemma iterateMovieDates_friday_in_order :
  fetch Fixture.friday [] (GET (JS.show (Some "http://s/cinema"))) = inr (Fixture.page "cinema")
  /\ select_options Fixture.friday "cinema" "movie" = Some Fixture.movies
  /\ select_options Fixture.friday "cinema" "day" = Some Fixture.weekend
  /\ find (fun option => String.eqb (text option) "Friday") Fixture.weekend
     = Some {| value := "05"; text := "Friday" |}
  /\ (forall movie t', 1 <= movie < 4 ->
        Cases.checkAnswer Fixture.friday t' (Cases.checkUrl (Some "http://s/cinema") "05" movie)
        = inr (Cases.fridayContent movie))
  /\ LinkScraper.iterateMovieDates Fixture.friday (Some "http://s/cinema") "Friday" []
     = (inr [ {| LinkScraper.timeOp := JS.VString "16:00";
                 LinkScraper.movie := Some "Keep Your Seats, Please" |};
              {| LinkScraper.timeOp := JS.VString "16:00";
                 LinkScraper.movie := Some "A Day at the Races" |} ],
        [ Fetch (GET "http://s/cinema");
          Fetch (GET "http://s/cinema/check?day=05&movie=01");
          Fetch (GET "http://s/cinema/check?day=05&movie=02");
          Fetch (GET "http://s/cinema/check?day=05&movie=03") ]).
Proof.
  assert (Hc : forall movie t', 1 <= movie < 4 ->
             Cases.checkAnswer Fixture.friday t'
               (Cases.checkUrl (Some "http://s/cinema") "05" movie)
             = inr (Cases.fridayContent movie)).
  { intros movie t' H. destruct movie as [|[|[|[|movie]]]]; try lia; reflexivity. }
  split; [reflexivity|]. split; [reflexivity|]. split; [reflexivity|].
  split; [reflexivity|]. split; [exact Hc|].
  exact (iterateMovieDates_in_order Fixture.friday (Some "http://s/cinema") "Friday" []
           (Fixture.page "cinema") Fixture.movies Fixture.weekend
           {| value := "05"; text := "Friday" |} Cases.fridayContent
           eq_refl eq_refl eq_refl eq_refl Hc).
Defined.

(** Saturday on the site: the check endpoint does not answer for day 06,
    and the first request ends the stage. *)
Lemma iterateMovieDates_saturday_fails :
  fetch Fixture.friday [] (GET (JS.show (Some "http://s/cinema"))) = inr (Fixture.page "cinema")
  /\ find (fun option => String.eqb (text option) "Saturday") Fixture.weekend
     = Some {| value := "06"; text := "Saturday" |}
  /\ 1 <= 1 < List.length Fixture.movies
  /\ (forall t', Cases.checkAnswer Fixture.friday t'
                   (Cases.checkUrl (Some "http://s/cinema") "06" 1)
                 = inl (TypeError "fetch failed"))
  /\ LinkScraper.iterateMovieDates Fixture.friday (Some "http://s/cinema") "Saturday" []
     = (inl (TypeError "fetch failed"),
        [ Fetch (GET "http://s/cinema");
          Fetch (GET "http://s/cinema/check?day=06&movie=01") ]).
Proof.
  split; [reflexivity|]. split; [reflexivity|]. split; [simpl; lia|].
  split; [reflexivity|].
  refine (iterateMovieDates_check_fails Fixture.friday (Some "http://s/cinema") "Saturday" []
            (Fixture.page "cinema") Fixture.movies Fixture.weekend
            {| value := "06"; text := "Saturday" |} Cases.fridayContent 1
            (TypeError "fetch failed") eq_refl eq_refl eq_refl eq_refl _ _ _).
  - simpl. lia.
  - intros movie t' H. lia.
  - intros t'. reflexivity.
Defined.

(** ** extractLinks: when it throws *)

Lemma mapE_throws_iff {A B} (f : A -> error + B) l :
  (exists e, mapE f l = inl e) <-> exists x e, In x l /\ f x = inl e.
Proof.
  induction l as [|x r IH]; cbn [mapE].
  - split; [intros (e & H); discriminate|intros (x & e & [] & _)].
  - destruct (f x) as [e|y] eqn:Hx; cbn [bindE].
    + split; [intros _; exists x, e; split; [now left|exact Hx]|intros _; now exists e].
    + destruct (mapE f r) as [e|ys]; cbn [bindE].
      * split; [intros _|intros _; now exists e].
        destruct (proj1 IH (ex_intro _ e eq_refl)) as (x' & e' & Hin & Hf).
        exists x', e'. split; [now right|exact Hf].
      * split; [intros (e & H); discriminate|].
        intros (x' & e' & [<-|Hin] & Hf); [congruence|].
        destruct (proj2 IH (ex_intro _ x' (ex_intro _ e' (conj Hin Hf)))) as (e & H).
        discriminate.
Qed.

(** X7. [extractLinks] throws in two cases only: the page cannot be fetched,
    or one of the selected anchors has an [href] that starts with [./] and
    that [new URL] cannot resolve against the base. In both cases the page
    was requested once. *)
Theorem extractLinks_throws_iff w url t :
  ((exists e, fst (LinkScraper.extractLinks w url t) = inl e)
   <-> (exists e, fetch w t (GET (JS.show url)) = inl e)
       \/ (exists response h,
              fetch w t (GET (JS.show url)) = inr response
              /\ In h (anchors w (resp_text response) url)
              /\ JS.startsWith h "./" = true
              /\ URL_href w h (location_href w url) = None))
  /\ snd (LinkScraper.extractLinks w url t) = (t ++ [Fetch (GET (JS.show url))])%list.
Proof.
  rewrite extractLinks_unfold. split; [|reflexivity]. cbn [fst].
  destruct (fetch w t (GET (JS.show url))) as [e|response].
  - split; [intros _; left; now exists e|intros _; now exists e].
  - unfold LinkScraper.uniqueLinks, LinkScraper.links.
    pose proof (mapE_throws_iff (LinkScraper.absolute w (location_href w url))
                  (anchors w (resp_text response) url)) as Hm.
    destruct (mapE _ _) as [e|m]; cbn [bindE].
    + split; [intros _; right|intros _; now exists e].
      destruct (proj1 Hm (ex_intro _ e eq_refl)) as (h & e' & Hin & Hh).
      exists response, h. unfold LinkScraper.absolute in Hh.
      destruct (JS.startsWith h "./"); [|discriminate].
      destruct (URL_href w h (location_href w url)); [discriminate|].
      repeat split; assumption || reflexivity.
    + split; [intros (e & H); discriminate|].
      intros [(e & H)|(response' & h & Hr & Hin & Hs & Hu)]; [discriminate|].
      injection Hr as <-.
      destruct (proj2 Hm) as (e & H); [|discriminate].
      exists h, (TypeError "Invalid URL"). split; [exact Hin|].
      unfold LinkScraper.absolute. now rewrite Hs, Hu.
Qed.

(** ** sortAvailability: when it returns, and what *)

Lemma resTime_windowsFor filterDays_ film :
  Cases.hasTimeText film ->
  LinkScraper.resTime filterDays_ film = inr (Cases.windowsFor filterDays_ film).
Proof.
  intros (s & Hs). unfold LinkScraper.resTime, Cases.windowsFor, Cases.timeText.
  now rewrite Hs.
Qed.

Lemma resTime_throws filterDays_ film :
  ~ Cases.hasTimeText film -> exists e, LinkScraper.resTime filterDays_ film = inl e.
Proof.
  intros H. unfold LinkScraper.resTime, Cases.hasTimeText in *.
  destruct (LinkScraper.timeOp film) as [| |b|n|s]; cbn; eauto.
  exfalso. apply H. now exists s.
Qed.

Lemma reservation_returns_iff filterDays_ films :
  (Forall Cases.hasTimeText films ->
   LinkScraper.reservation filterDays_ films
   = inr (flat_map (Cases.windowsFor filterDays_) films))
  /\ ((exists r, LinkScraper.reservation filterDays_ films = inr r) ->
      Forall Cases.hasTimeText films).
Proof.
  induction films as [|film films [IH1 IH2]]; cbn [LinkScraper.reservation flat_map].
  - split; [reflexivity|constructor].
  - split.
    + intros H. inversion H as [|? ? Hf Hr]; subst.
      rewrite (resTime_windowsFor _ _ Hf). cbn [bindE]. now rewrite (IH1 Hr).
    + intros (r & H).
      destruct (LinkScraper.timeOp film) as [| |b|n|s] eqn:Ht;
        try (unfold LinkScraper.resTime in H; rewrite Ht in H; discriminate H).
      constructor; [now exists s|]. apply IH2.
      rewrite (resTime_windowsFor filterDays_ film) in H by now exists s.
      cbn [bindE] in H.
      destruct (LinkScraper.reservation filterDays_ films) as [e|rs]; [discriminate|].
      now exists rs.
Qed.

(** X8. [sortAvailability] returns iff [cinemaInfo] is an array in which the
    time of every film is a string; one film with another time makes it
    throw, whatever the other films matched. When it returns, the result
    is made film after film, each film's reservations in the order of the
    codes, and nothing is removed: two films with the same hour give each
    reservation twice. *)
Theorem sortAvailability_returns_iff w restFree cinemaInfo dateInfo :
  let filterDays_ := LinkScraper.filterDays (group1_values w restFree) dateInfo in
  ((exists r, LinkScraper.sortAvailability w restFree cinemaInfo dateInfo = inr r)
   <-> exists films, cinemaInfo = Some films /\ Forall Cases.hasTimeText films)
  /\ (forall films, Forall Cases.hasTimeText films ->
        LinkScraper.sortAvailability w restFree (Some films) dateInfo
        = inr (flat_map (Cases.windowsFor filterDays_) films))
  /\ (forall film, Cases.hasTimeText film ->
        LinkScraper.sortAvailability w restFree (Some [film; film]) dateInfo
        = inr (Cases.windowsFor filterDays_ film ++ Cases.windowsFor filterDays_ film)%list).
Proof.
  intros filterDays_. split; [|split].
  - unfold LinkScraper.sortAvailability. fold filterDays_. split.
    + intros (r & H). destruct cinemaInfo as [films|]; [|discriminate].
      exists films. split; [reflexivity|].
      apply (proj2 (reservation_returns_iff filterDays_ films)). now exists r.
    + intros (films & -> & H).
      rewrite (proj1 (reservation_returns_iff filterDays_ films) H). eauto.
  - intros films H. unfold LinkScraper.sortAvailability. fold filterDays_.
    apply (proj1 (reservation_returns_iff filterDays_ films) H).
  - intros film H. unfold LinkScraper.sortAvailability. fold filterDays_.
    rewrite (proj1 (reservation_returns_iff filterDays_ [film; film]))
      by (repeat constructor; assumption).
    cbn [flat_map]. now rewrite List.app_nil_r.
Qed.

(** ** extractDates: the first calendar gives the order *)

Lemma filter_all {A} (f : A -> bool) l : (forall x, In x l -> f x = true) -> filter f l = l.
Proof.
  induction l as [|x r IH]; intros H; cbn [filter]; [reflexivity|].
  rewrite (H x (or_introl eq_refl)). f_equal. apply IH. intros y Hy. apply H. now right.
Qed.

Lemma forallb_perm {A} (f : A -> bool) a b : Permutation a b -> forallb f a = forallb f b.
Proof.
  induction 1 as [|x a b _ IH|x y a|a b c _ IH1 _ IH2]; cbn [forallb].
  - reflexivity.
  - now rewrite IH.
  - now rewrite !andb_assoc, (andb_comm (f y)).
  - now rewrite IH1.
Qed.

(** X9. The common days come in the order of the first list, which gives
    them all when it is alone; the order of the other lists does not matter,
    and neither does a list that comes twice. *)
Theorem goodDay_first_list first :
  Application.goodDay [first] = inr first
  /\ (forall rest, exists keep,
         Application.goodDay (first :: rest) = inr (filter keep first))
  /\ (forall rest rest', Permutation rest rest' ->
         Application.goodDay (first :: rest) = Application.goodDay (first :: rest'))
  /\ (forall rest, Application.goodDay (first :: first :: rest)
                   = Application.goodDay (first :: rest)).
Proof.
  unfold Application.goodDay. split; [|split; [|split]].
  - f_equal. now apply filter_all.
  - intros rest. eexists. reflexivity.
  - intros rest rest' Hp. f_equal. apply filter_ext. intros day. now apply forallb_perm.
  - intros rest. f_equal. apply filter_ext_in. intros day Hin. cbn [forallb].
    now rewrite (proj2 (includes_In first day) Hin).
Qed.

(** ** run: the requests for the start page *)

Lemma emits_weaken (P : event -> Prop) {A} (m : M A) :
  Spec.emits P m -> Spec.emits Spec.anyEvent m.
Proof.
  intros H t r t' E. destruct (H t r t' E) as (evs & -> & _).
  exists evs. split; [reflexivity|]. apply Forall_forall. intros e _. exact I.
Qed.

Section Start.

Variable w : World.
Variable argv2 : option string.

Lemma extractDates_fetches_first t r t' :
  Application.extractDates w argv2 t = (r, t') ->
  exists evs, t' = (t ++ Cases.startRequest argv2 :: evs)%list.
Proof.
  unfold Application.extractDates. unfold bind at 1.
  destruct (Application.initial w argv2 t) as [[e|links] t1] eqn:Hi;
    destruct (initial_fetches_first _ _ _ _ _ Hi) as (evs0 & ->).
  - intros [= <- <-]. now exists evs0.
  - intros H.
    change (t ++ Fetch (GET (JS.show argv2)) :: evs0)%list
      with (t ++ (Fetch (GET (JS.show argv2)) :: evs0))%list in H.
    eapply extend_after in H.
    + destruct H as (evs & ->). now exists (evs0 ++ evs)%list.
    + destruct links as [links|].
      * apply emits_bind; [apply (emits_weaken _ _ (emits_collectDays w _))|].
        intros arrayDays. auto 6 using any_event with emits.
      * auto using any_event with emits.
Qed.

(** X10. A run that goes to the end asks for the start page three times,
    once at the start of each of the date, cinema and restaurant stages:
    its trace is the first line, then for each stage in turn the request
    for the start page followed by the other events of that stage. *)
Theorem run_asks_start_page_thrice t out t' :
  Application.run w argv2 t = (inr out, t') ->
  out <> "No Dates Available" ->
  exists dateInfo cinemaInfo restaurantInfo dates cinema restaurant,
    let t0 := (t ++ [ConsoleLog "Scraping Links...OK"])%list in
    let t1 := (t0 ++ Cases.startRequest argv2 :: dates)%list in
    let t2 := (t1 ++ Cases.startRequest argv2 :: cinema)%list in
    Application.extractDates w argv2 t0 = (inr (Some dateInfo), t1)
    /\ Application.extractCinema w argv2 dateInfo t1 = (inr cinemaInfo, t2)
    /\ Application.extractRestaurant w argv2 cinemaInfo dateInfo t2
       = (inr restaurantInfo, (t2 ++ Cases.startRequest argv2 :: restaurant)%list)
    /\ t' = (t ++ ConsoleLog "Scraping Links...OK"
               :: Cases.startRequest argv2 :: dates
               ++ Cases.startRequest argv2 :: cinema
               ++ Cases.startRequest argv2 :: restaurant)%list.
Proof.
  unfold Application.run, bind, emit, lift, ret, throw.
  destruct (Application.extractDates w argv2 _) as [[e|[dateInfo|]] t1] eqn:Ed;
    try discriminate.
  destruct (Nat.eqb (List.length dateInfo) 0); [intros [= <- <-] Hne; now destruct Hne|].
  destruct (Application.extractCinema w argv2 dateInfo t1) as [[e|cinemaInfo] t2] eqn:Ec;
    try discriminate.
  destruct (Application.extractRestaurant w argv2 cinemaInfo dateInfo t2)
    as [[e|restaurantInfo] t3] eqn:Er; try discriminate.
  destruct (Application.results dateInfo cinemaInfo restaurantInfo); try discriminate.
  intros [= <- <-] _.
  destruct (extractDates_fetches_first _ _ _ Ed) as (dates & ->).
  destruct (extractCinema_fetches_first _ _ _ _ _ _ Ec) as (cinema & ->).
  destruct (extractRestaurant_fetches_first _ _ _ _ _ _ _ Er) as (restaurant & ->).
  exists dateInfo, cinemaInfo, restaurantInfo, dates, cinema, restaurant.
  cbv zeta. split; [reflexivity|]. split; [exact Ec|]. split; [exact Er|].
  unfold Cases.startRequest.
  repeat (first [rewrite <- List.app_assoc | progress cbn [app]]). reflexivity.
Qed.

(** ** run: no showing, no cinema *)

Lemma results_no_showing dateInfo restaurantInfo :
  Application.results dateInfo (Some []) restaurantInfo = inr [].
Proof.
  unfold Application.results. induction dateInfo as [|d r IH]; cbn; [reflexivity|].
  cbn in IH. now rewrite IH.
Qed.

(** X11. When the cinema stage returns no Showing, [run] returns the header
    [Suggestions:] alone, not the no-day text, whatever the restaurant stage
    returned, were it [undefined]. *)
Theorem run_header_alone t dateInfo t1 t2 restaurantInfo t3 :
  Application.extractDates w argv2 (t ++ [ConsoleLog "Scraping Links...OK"])%list
  = (inr (Some dateInfo), t1) ->
  dateInfo <> [] ->
  Application.extractCinema w argv2 dateInfo t1 = (inr (Some []), t2) ->
  Application.extractRestaurant w argv2 (Some []) dateInfo t2 = (inr restaurantInfo, t3) ->
  Application.run w argv2 t = (inr (JS.newline ++ "Suggestions:" ++ JS.newline), t3).
Proof.
  intros Hd Hne Hc Hr. unfold Application.run, bind, emit, lift, ret.
  rewrite Hd. destruct dateInfo as [|d ds]; [contradiction|]. cbn [List.length Nat.eqb].
  rewrite Hc, Hr, results_no_showing. reflexivity.
Qed.

(** X12. When the cinema stage returns [undefined], because it had no
    links, [run] throws: the restaurant stage throws or returns
    [undefined] too, and then the loops throw. No suggestion is
    returned. *)
Theorem run_throws_without_cinema t dateInfo t1 t2 :
  Application.extractDates w argv2 (t ++ [ConsoleLog "Scraping Links...OK"])%list
  = (inr (Some dateInfo), t1) ->
  dateInfo <> [] ->
  Application.extractCinema w argv2 dateInfo t1 = (inr None, t2) ->
  exists e t', Application.run w argv2 t = (inl e, t').
Proof.
  intros Hd Hne Hc. unfold Application.run, bind, emit, lift, ret.
  rewrite Hd. destruct dateInfo as [|d ds]; [contradiction|]. cbn [List.length Nat.eqb].
  rewrite Hc.
  destruct (Application.extractRestaurant w argv2 None (d :: ds) t2)
    as [[e|[restaurantInfo|]] t3] eqn:Er.
  - now exists e, t3.
  - exfalso. revert Er.
    unfold Application.extractRestaurant, bind, emit, lift, ret.
    destruct (Application.initial w argv2 t2) as [[e|[links|]] t4]; try discriminate.
    destruct (LinkScraper.restaurantAuthentication w (nth_error links 2) t4)
      as [[e|restData] t5]; discriminate.
  - eexists _, t3. reflexivity.
Qed.

End Start.

(** The run on the site where Friday is free for all. *)
Lemma run_friday_asks_thrice :
  exists t',
    Application.run Fixture.friday Fixture.start [] = (inr Fixture.output, t')
    /\ Fixture.output <> "No Dates Available"
    /\ exists dateInfo cinemaInfo restaurantInfo dates cinema restaurant,
        let t0 := ([] ++ [ConsoleLog "Scraping Links...OK"])%list in
        let t1 := (t0 ++ Cases.startRequest Fixture.start :: dates)%list in
        let t2 := (t1 ++ Cases.startRequest Fixture.start :: cinema)%list in
        Application.extractDates Fixture.friday Fixture.start t0 = (inr (Some dateInfo), t1)
        /\ Application.extractCinema Fixture.friday Fixture.start dateInfo t1
           = (inr cinemaInfo, t2)
        /\ Application.extractRestaurant Fixture.friday Fixture.start cinemaInfo dateInfo t2
           = (inr restaurantInfo, (t2 ++ Cases.startRequest Fixture.start :: restaurant)%list)
        /\ t' = ([] ++ ConsoleLog "Scraping Links...OK"
                   :: Cases.startRequest Fixture.start :: dates
                   ++ Cases.startRequest Fixture.start :: cinema
                   ++ Cases.startRequest Fixture.start :: restaurant)%list.
Proof.
  assert (Hne : Fixture.output <> "No Dates Available")
    by (intros H; vm_compute in H; discriminate H).
  eexists. split; [reflexivity|]. split; [exact Hne|].
  exact (run_asks_start_page_thrice Fixture.friday Fixture.start [] Fixture.output _
           eq_refl Hne).
Defined.

(** The cinema that lists no movie: the restaurant stage runs, and the run
    returns the header. *)
Lemma run_emptyCinema_header :
  exists t1 t2 restaurantInfo t3,
    Application.extractDates Cases.emptyCinema Fixture.start
      ([] ++ [ConsoleLog "Scraping Links...OK"])%list
    = (inr (Some ["Friday"]), t1)
    /\ ["Friday"] <> []
    /\ Application.extractCinema Cases.emptyCinema Fixture.start ["Friday"] t1
       = (inr (Some []), t2)
    /\ Application.extractRestaurant Cases.emptyCinema Fixture.start (Some []) ["Friday"] t2
       = (inr restaurantInfo, t3)
    /\ Application.run Cases.emptyCinema Fixture.start []
       = (inr (JS.newline ++ "Suggestions:" ++ JS.newline), t3).
Proof.
  assert (Hne : ["Friday"] <> @nil string) by discriminate.
  do 4 eexists.
  split; [lazy; reflexivity|]. split; [exact Hne|].
  split; [lazy; reflexivity|]. split; [lazy; reflexivity|].
  exact (run_header_alone Cases.emptyCinema Fixture.start [] ["Friday"] _ _ _ _
           eq_refl Hne eq_refl eq_refl).
Defined.

(** The start page that is gone after the date stage: the cinema stage
    returns [undefined] and the run throws. *)
Lemma run_startGone_throws :
  exists t1 t2,
    Application.extractDates Cases.startGone Fixture.start
      ([] ++ [ConsoleLog "Scraping Links...OK"])%list
    = (inr (Some ["Friday"]), t1)
    /\ ["Friday"] <> []
    /\ Application.extractCinema Cases.startGone Fixture.start ["Friday"] t1 = (inr None, t2)
    /\ exists e t', Application.run Cases.startGone Fixture.start [] = (inl e, t').
Proof.
  assert (Hne : ["Friday"] <> @nil string) by discriminate.
  do 2 eexists.
  split; [lazy; reflexivity|]. split; [exact Hne|]. split; [lazy; reflexivity|].
  exact (run_throws_without_cinema Cases.startGone Fixture.start [] ["Friday"] _ _
           eq_refl Hne eq_refl).
Defined.

(** ** The order of the printed sentences *)

Lemma filter_twice {A} (p q : A -> bool) l :
  filter p (filter q l) = filter (fun y => q y && p y) l.
Proof.
  induction l as [|x r IH]; cbn [filter]; [reflexivity|].
  destruct (q x); cbn [filter andb]; [destruct (p x)|]; now rewrite IH.
Qed.

Lemma includes_app s x y :
  JS.includes (s ++ [x])%list y = JS.includes s y || String.eqb y x.
Proof.
  unfold JS.includes. rewrite existsb_app. cbn [existsb]. now rewrite orb_false_r.
Qed.

Lemma fold_Set_add_first a : forall s,
  fold_left JS.Set_add a s
  = (s ++ filter (fun y => negb (JS.includes s y)) (Cases.firstOccurrences a))%list.
Proof.
  induction a as [|x r IH]; intros s; cbn [fold_left Cases.firstOccurrences filter].
  - now rewrite List.app_nil_r.
  - rewrite IH. unfold JS.Set_add. destruct (JS.includes s x) eqn:Hx; cbn [negb].
    + f_equal. rewrite filter_twice. apply filter_ext. intros y.
      destruct (String.eqb_spec y x) as [->|_]; [now rewrite Hx|reflexivity].
    + rewrite <- List.app_assoc. cbn [app]. do 2 f_equal.
      rewrite filter_twice. apply filter_ext. intros y.
      rewrite includes_app, negb_orb. apply andb_comm.
Qed.

(** X13. The printed sentences stand in the order in which the loops first
    pushed them: a sentence stays at its first place, and pushing it again
    later changes nothing. The empty array prints the header alone. *)
Theorem finalResult_first_places results_ :
  Application.finalResult results_
  = JS.newline ++ "Suggestions:" ++ JS.newline
      ++ JS.join JS.newline (Cases.firstOccurrences results_)
  /\ (forall a s b, results_ = (a ++ s :: b)%list -> In s a ->
        Application.finalResult results_ = Application.finalResult (a ++ b))
  /\ Application.finalResult [] = JS.newline ++ "Suggestions:" ++ JS.newline.
Proof.
  split; [|split].
  - unfold Application.finalResult, JS.Set_of. rewrite fold_Set_add_first.
    cbn [app]. rewrite filter_all by (intros; reflexivity). reflexivity.
  - intros a s b -> Hin. unfold Application.finalResult.
    replace (JS.Set_of (a ++ s :: b)) with (JS.Set_of (a ++ b)); [reflexivity|].
    unfold JS.Set_of. rewrite !fold_left_app. cbn [fold_left]. f_equal.
    change (fold_left JS.Set_add a []) with (JS.Set_of a). unfold JS.Set_add.
    now rewrite (proj2 (includes_In _ s) (proj2 (Set_of_In a s) Hin)).
  - reflexivity.
Qed.

(** ** run: what is printed, and from what *)







Section Printed.

Variable w : World.
Variable argv2 : option string.


End Printed.



(** ** The two digits of a day and of a movie *)

Lemma length_repeatChar c n : String.length (JS.repeatChar c n) = n.
Proof. induction n; simpl; auto. Qed.

Lemma length_append a b : String.length (a ++ b) = String.length a + String.length b.
Proof. induction a; simpl; auto. Qed.

(** X14. The text that [iterateMovieDates] puts in the check URL for a
    number that is an integer from 0 to [MAX_SAFE_INTEGER], as the movie
    counter is, is made of decimal digits, two at least and exactly two
    below 100, and reads back as the number with [parseInt] and with
    [Number]: two such numbers that differ give different texts, and a day
    value that is already such a text is sent as it is. *)
Theorem twoDigits_reads_back z :
  (0 <= z <= JS.MAX_SAFE_INTEGER)%Z ->
  let text := LinkScraper.twoDigits (JS.Num z) in
  Spec.digitsOnly text = true
  /\ 2 <= String.length text
  /\ ((z < 100)%Z -> String.length text = 2)
  /\ JS.parseInt text = JS.Num z
  /\ JS.Number text = JS.Num z
  /\ LinkScraper.twoDigits (JS.Number text) = text
  /\ (forall z', (0 <= z' <= JS.MAX_SAFE_INTEGER)%Z ->
                  LinkScraper.twoDigits (JS.Num z') = text -> z' = z).
Proof.
  intros [Hz _] text. repeat split.
  - apply (twoDigits_decimal z Hz).
  - unfold text, LinkScraper.twoDigits, JS.padStart.
    rewrite length_append, length_repeatChar. lia.
  - intros H. apply twoDigits_length. lia.
  - now apply parseInt_twoDigits.
  - now apply Number_twoDigits.
  - unfold text. now rewrite Number_twoDigits.
  - intros z' [Hz' _] E. apply (f_equal JS.parseInt) in E. unfold text in E.
    rewrite !parseInt_twoDigits in E by assumption. now injection E.
Qed.

Lemma twoDigits_reads_back_5 :
  (0 <= 5 <= JS.MAX_SAFE_INTEGER)%Z
  /\ Spec.digitsOnly (LinkScraper.twoDigits (JS.Num 5)) = true
  /\ 2 <= String.length (LinkScraper.twoDigits (JS.Num 5))
  /\ ((5 < 100)%Z -> String.length (LinkScraper.twoDigits (JS.Num 5)) = 2)
  /\ JS.parseInt (LinkScraper.twoDigits (JS.Num 5)) = JS.Num 5
  /\ JS.Number (LinkScraper.twoDigits (JS.Num 5)) = JS.Num 5
  /\ LinkScraper.twoDigits (JS.Number (LinkScraper.twoDigits (JS.Num 5)))
     = LinkScraper.twoDigits (JS.Num 5)
  /\ (forall z', (0 <= z' <= JS.MAX_SAFE_INTEGER)%Z ->
        LinkScraper.twoDigits (JS.Num z') = LinkScraper.twoDigits (JS.Num 5) -> z' = 5%Z).
Proof.
  assert (H : (0 <= 5 <= JS.MAX_SAFE_INTEGER)%Z) by (unfold JS.MAX_SAFE_INTEGER; lia).
  split; [exact H|]. exact (twoDigits_reads_back 5 H).
Defined.

(** ** extractDates: a start page without links *)

(** X15. When the start page gives no link, the first link is [undefined]:
    [extractDates] asks for the URL [undefined], and when that fails it logs
    [Failed to fetch links from: undefined] and throws, since no calendar
    was read. *)
Theorem extractDates_no_link_on_page w argv2 t t1 e :
  LinkScraper.extractLinks w argv2 t = (inr [], t1) ->
  fetch w t1 (GET "undefined") = inl e ->
  Application.extractDates w argv2 t
  = (inl (TypeError "Cannot read properties of undefined (reading 'filter')"),
     (t1 ++ [ Fetch (GET "undefined");
              ConsoleError "Failed to fetch links from: undefined" ])%list).
Proof.
  intros Hl Hf.
  unfold Application.extractDates, Application.initial, try_catch, bind, ret.
  rewrite Hl. cbn [nth_error]. unfold Application.collectDays.
  rewrite extractLinks_unfold. cbn [JS.show]. rewrite Hf. unfold lift.
  cbn [Application.goodDay]. now rewrite <- List.app_assoc.
Qed.

Lemma extractDates_bareStart :
  LinkScraper.extractLinks Cases.bareStart Fixture.start [] = (inr [], [Fetch (GET "http://s/")])
  /\ fetch Cases.bareStart [Fetch (GET "http://s/")] (GET "undefined")
     = inl (TypeError "fetch failed")
  /\ Application.extractDates Cases.bareStart Fixture.start []
     = (inl (TypeError "Cannot read properties of undefined (reading 'filter')"),
        [ Fetch (GET "http://s/");
          Fetch (GET "undefined");
          ConsoleError "Failed to fetch links from: undefined" ]).
Proof.
  split; [reflexivity|]. split; [reflexivity|].
  exact (extractDates_no_link_on_page Cases.bareStart Fixture.start []
           [Fetch (GET "http://s/")] (TypeError "fetch failed") eq_refl eq_refl).
Defined.

(** ** A film whose time does not start with a number *)

Lemma alpha_no_digit c :
  Spec.isAlpha c = true ->
  JS.isWhiteSpace c = false
  /\ Ascii.eqb c "-" = false /\ Ascii.eqb c "+" = false /\ Ascii.eqb c "0" = false
  /\ Ascii.eqb c ":" = false /\ JS.digitIn 10 c = None.
Proof.
  destruct c as [[] [] [] [] [] [] [] []]; intros H; vm_compute in H; try discriminate H;
    vm_compute; repeat split; reflexivity.
Qed.

Lemma parseInt_alpha c r : Spec.isAlpha c = true -> JS.parseInt (String c r) = JS.NaN.
Proof.
  intros H. destruct (alpha_no_digit c H) as (Hw & Hm & Hp & H0 & _ & Hd).
  unfold JS.parseInt. cbn [JS.trimStart]. rewrite Hw. cbn [JS.readSign]. rewrite Hm, Hp.
  assert (Hr : JS.radixPrefix "x" "X" (String c r) = None).
  { destruct r; cbn [JS.radixPrefix]; [reflexivity|]. now rewrite H0. }
  rewrite Hr. cbn [JS.readDigits]. now rewrite Hd.
Qed.

Lemma trimEnd_head c r :
  JS.isWhiteSpace c = false -> exists r', JS.trimEnd (String c r) = String c r'.
Proof.
  intros H. cbn [JS.trimEnd]. destruct (JS.trimEnd r); rewrite ?H; eauto.
Qed.

Lemma Number_alpha c r : Spec.isAlpha c = true -> JS.Number (String c r) = JS.NaN.
Proof.
  intros H. destruct (alpha_no_digit c H) as (Hw & Hm & Hp & H0 & _ & Hd).
  unfold JS.Number. cbn [JS.trimStart]. rewrite Hw.
  destruct (trimEnd_head c r Hw) as (r' & ->).
  assert (Hr : forall l u, JS.radixPrefix l u (String c r') = None).
  { intros l u. destruct r'; cbn [JS.radixPrefix]; [reflexivity|]. now rewrite H0. }
  rewrite !Hr. unfold JS.signedDecimal. cbn [JS.readSign]. rewrite Hm, Hp.
  unfold JS.allDigits. cbn [JS.readDigits]. now rewrite Hd.
Qed.

(** X16. For a film whose time starts with a letter, the two stages differ.
    The hour is [NaN] for [parseInt] and for [Number] ([Infinity], which
    [Number] reads as a number, is left aside): [sortAvailability] makes no
    reservation for the film, since [NaN] equals no start hour, and the
    loops of [run] make a sentence of the film with every reservation they
    are given, since [NaN] differs from every start hour. *)
Theorem unreadable_hour w restFree film c r :
  LinkScraper.timeOp film = JS.VString (String c r) ->
  Spec.isAlpha c = true ->
  c <> "I"%char ->
  (forall dateInfo,
      LinkScraper.sortAvailability w restFree (Some [film]) dateInfo = inr [])
  /\ (forall dateInfo restaurantInfo,
         Application.results dateInfo (Some [film]) (Some restaurantInfo)
         = inr (flat_map
                  (fun date =>
                     map (Application.result date (LinkScraper.movie film) (String c r))
                         restaurantInfo)
                  dateInfo)).
Proof.
  intros Ht Hc _.
  assert (Hs : JS.splitHead ":" (String c r) = String c (JS.splitHead ":" r)).
  { cbn [JS.splitHead]. now rewrite (proj1 (proj2 (proj2 (proj2 (proj2 (alpha_no_digit c Hc)))))). }
  split.
  - intros dateInfo. unfold LinkScraper.sortAvailability. cbn [LinkScraper.reservation].
    unfold LinkScraper.resTime. rewrite Ht. cbn [LinkScraper.hourText bindE].
    rewrite Hs, (parseInt_alpha c _ Hc). cbn [JS.plus]. unfold LinkScraper.filteredTimes.
    replace (filter _ _) with (@nil string); [reflexivity|].
    symmetry. induction (LinkScraper.filterDays _ _) as [|x l IH]; cbn [filter]; [reflexivity|].
    replace (JS.strict_eq (LinkScraper.timeStart x) JS.NaN) with false; [exact IH|].
    now destruct (LinkScraper.timeStart x).
  - intros dateInfo restaurantInfo. unfold Application.results.
    apply concatE_flat_map. intros date _. cbn [Application.concatE].
    unfold Application.cinemaResults. rewrite Ht, Hs, (Number_alpha c _ Hc).
    unfold Application.restaurantTime. rewrite filter_all by (intros; reflexivity).
    cbn [bindE]. now rewrite List.app_nil_r.
Qed.

Lemma unreadable_hour_soon :
  LinkScraper.timeOp {| LinkScraper.timeOp := JS.VString "soon"; LinkScraper.movie := None |}
  = JS.VString "soon"
  /\ Spec.isAlpha "s" = true
  /\ "s"%char <> "I"%char
  /\ (forall dateInfo,
        LinkScraper.sortAvailability Fixture.friday "booking"
          (Some [ {| LinkScraper.timeOp := JS.VString "soon"; LinkScraper.movie := None |} ])
          dateInfo
        = inr [])
  /\ (forall dateInfo restaurantInfo,
         Application.results dateInfo
           (Some [ {| LinkScraper.timeOp := JS.VString "soon"; LinkScraper.movie := None |} ])
           (Some restaurantInfo)
         = inr (flat_map (fun date => map (Application.result date None "soon") restaurantInfo)
                         dateInfo)).
Proof.
  assert (H : "s"%char <> "I"%char) by discriminate.
  split; [reflexivity|]. split; [reflexivity|]. split; [exact H|].
  exact (unreadable_hour Fixture.friday "booking"
           {| LinkScraper.timeOp := JS.VString "soon"; LinkScraper.movie := None |}
           "s" "oon" eq_refl eq_refl H).
Defined.

(** ** Input values that are too short to be codes *)

Lemma drop_short n : forall s, String.length s <= n -> JS.drop n s = EmptyString.
Proof.
  induction n as [|n IH]; intros [|c s] H; cbn in *; try reflexivity; try lia.
  apply IH. lia.
Qed.

(** X17. An input value of three characters or fewer is kept like any other
    when it starts a day's name, the empty value whenever there is a day,
    but it is never turned into a reservation: it has no start hour. *)
Theorem short_values_make_no_reservation inputElements dateInfo :
  (In EmptyString (LinkScraper.filterDays inputElements dateInfo)
   <-> In EmptyString inputElements /\ dateInfo <> [])
  /\ (forall input, String.length input <= 3 ->
        LinkScraper.timeStart input = JS.NaN
        /\ forall filterDays_ hourTwo,
             ~ In input (LinkScraper.filteredTimes filterDays_ hourTwo)).
Proof.
  split.
  - unfold LinkScraper.filterDays. rewrite filter_In. cbn [JS.slice JS.take JS.drop].
    split; intros [Hin H]; split; try exact Hin.
    + intros ->. discriminate H.
    + destruct dateInfo as [|d r]; [contradiction|]. cbn [map existsb].
      now destruct (JS.toLowerCase d).
  - intros input Hlen.
    assert (Hts : LinkScraper.timeStart input = JS.NaN).
    { unfold LinkScraper.timeStart, JS.slice. now rewrite drop_short. }
    split; [exact Hts|]. intros filterDays_ hourTwo Hin.
    unfold LinkScraper.filteredTimes in Hin. apply filter_In in Hin.
    rewrite Hts in Hin. destruct Hin as [_ H]. discriminate H.
Qed.
